(** * Booking backend (dev-server.js): payment reconciliation

    A shallow embedding of the three Express handlers of [dev-server.js]
    ([POST /create-checkout-session], [GET /verify-payment/:invoice_id],
    [POST /webhook]) and of the JavaScript primitives they rely on, followed
    by the properties of the reconciliation logic.

    - JavaScript values are the inductive [jsval]; a number is held as the
      string JavaScript prints for it ([42], [1.5], [1e+21]).
    - The [bookings] table is a finite map from primary key to row.
    - A handler is a computation in a state-and-exception monad over
      [World]: the table, the fault the database answers with, the requests
      sent to the payment provider and the console. *)

From Stdlib Require Import ZArith Strings.String Strings.Ascii.
From Stdlib Require Import Numbers.DecimalString Numbers.DecimalPos.
From stdpp Require Import base strings gmap list.

Set Warnings "-register-all".
Open Scope string_scope.

(** ** JavaScript values *)

Module Js.

(** A value of parsed JSON or of the source.  [JNumber] carries what
    [Number.prototype.toString] gives for the number ([0], [42], [1.5],
    [1e+21]): the handlers only convert numbers to strings and test their
    truth. *)
Inductive jsval :=
| JUndefined
| JNull
| JBool (b : bool)
| JNumber (rendering : string)
| JString (s : string)
| JArray (xs : list jsval)
| JObject (fields : list (string * jsval)).

(** What a [throw] carries.  [TypeError] is raised by the runtime itself;
    [AxiosError] is what axios rejects with, [response] being the provider's
    answer when there was one. *)
Inductive exn :=
| TypeError (message : string)
| AxiosError (response : option jsval) (message : string).

Inductive outcome (A : Type) :=
| Returned (a : A)
| Thrown (e : exn).
Arguments Returned {A} a.
Arguments Thrown {A} e.

#[export] Instance outcome_ret : MRet outcome := @Returned.
#[export] Instance outcome_bind : MBind outcome := λ A B f m,
  match m with
  | Returned a => f a
  | Thrown e => Thrown e
  end.

(** ToBoolean *)
Definition truthy (v : jsval) : bool :=
  match v with
  | JUndefined | JNull => false
  | JBool b => b
  | JNumber r => negb (r =? "0") && negb (r =? "NaN")
  | JString s => negb (s =? "")
  | JArray _ | JObject _ => true
  end.

(** [v === s] for a string literal [s] *)
Definition strict_eq_string (v : jsval) (s : string) : bool :=
  match v with
  | JString t => t =? s
  | _ => false
  end.

(** [a || b] *)
Definition or_else (a b : jsval) : jsval := if truthy a then a else b.

Definition string_of_Z (n : Z) : string := NilEmpty.string_of_int (Z.to_int n).
Definition string_of_N (n : N) : string := NilEmpty.string_of_uint (N.to_uint n).

(** [k in o], for an object given by its fields *)
Definition has_key (k : string) (fields : list (string * jsval)) : bool :=
  existsb (λ kv, fst kv =? k) fields.

(** ToString, as a template literal applies it.  An object is converted by
    its [toString]; parsed JSON holds no function, so an own [toString]
    field is not callable, the inherited [valueOf] returns the object, and
    the conversion throws.  An array joins the conversions of its elements,
    [undefined] and [null] giving the empty string. *)
Fixpoint ToString (v : jsval) : outcome string :=
  match v with
  | JUndefined => Returned "undefined"
  | JNull => Returned "null"
  | JBool true => Returned "true"
  | JBool false => Returned "false"
  | JNumber r => Returned r
  | JString s => Returned s
  | JArray xs =>
      let elt x :=
        match x with
        | JUndefined | JNull => Returned ""
        | _ => ToString x
        end in
      (fix join (l : list jsval) : outcome string :=
         match l with
         | [] => Returned ""
         | [x] => elt x
         | x :: l' =>
             match elt x with
             | Returned s =>
                 match join l' with
                 | Returned t => Returned (s ++ "," ++ t)
                 | Thrown e => Thrown e
                 end
             | Thrown e => Thrown e
             end
         end) xs
  | JObject fields =>
      if has_key "toString" fields
      then Thrown (TypeError "Cannot convert object to primitive value")
      else Returned "[object Object]"
  end.

(** The string [ToString] returns, when it returns *)
Definition to_string (v : jsval) : string :=
  match ToString v with
  | Returned s => s
  | Thrown _ => ""
  end.

(** [o.k]: a [TypeError] on [undefined] and [null], the field of an object,
    [undefined] otherwise *)
Fixpoint assoc (k : string) (fields : list (string * jsval)) : jsval :=
  match fields with
  | [] => JUndefined
  | (k', v) :: rest => if k' =? k then v else assoc k rest
  end.

Definition get (o : jsval) (k : string) : outcome jsval :=
  match o with
  | JUndefined => Thrown (TypeError "Cannot read properties of undefined")
  | JNull => Thrown (TypeError "Cannot read properties of null")
  | JObject fields => Returned (assoc k fields)
  | _ => Returned JUndefined
  end.

(** [s.startsWith(p)] *)
Definition startsWith (s p : string) : bool := String.prefix p s.

(** [s.split(sep)] for a one-character separator: the pieces between the
    occurrences of [sep], never an empty array *)
Fixpoint split (sep : ascii) (s : string) : list string :=
  match s with
  | "" => [""]
  | String c rest =>
      if Ascii.eqb c sep then "" :: split sep rest
      else match split sep rest with
           | [] => [String c ""]
           | piece :: pieces => String c piece :: pieces
           end
  end.

(** [parts[i]] *)
Definition index (parts : list string) (i : nat) : jsval :=
  match parts !! i with
  | Some s => JString s
  | None => JUndefined
  end.

(** [v.startsWith(p)]: only a string has the method *)
Definition call_startsWith (v : jsval) (p : string) : outcome bool :=
  match v with
  | JString s => Returned (startsWith s p)
  | JUndefined => Thrown (TypeError "Cannot read properties of undefined")
  | JNull => Thrown (TypeError "Cannot read properties of null")
  | _ => Thrown (TypeError "startsWith is not a function")
  end.

(** [v.split(sep)] *)
Definition call_split (v : jsval) (sep : ascii) : outcome (list string) :=
  match v with
  | JString s => Returned (split sep s)
  | JUndefined => Thrown (TypeError "Cannot read properties of undefined")
  | JNull => Thrown (TypeError "Cannot read properties of null")
  | _ => Thrown (TypeError "split is not a function")
  end.

End Js.
Import Js.

(** ** Identifier correlation *)

(** dev-server.js, lines 100-103 (verify-payment):
    [let booking_id = null;
     if (external_id && external_id.startsWith('booking_'))
       booking_id = external_id.split('_')[1];] *)
Definition extract_verify (external_id : jsval) : outcome jsval :=
  if truthy external_id then
    sw ← call_startsWith external_id "booking_";
    if (sw : bool) then
      parts ← call_split external_id "_";
      mret (index parts 1)
    else mret JNull
  else mret JNull.

(** dev-server.js, lines 143-154 (webhook):
    [let booking_id = null;
     if (external_id && external_id.startsWith('booking_')) {
       const parts = external_id.split('_');
       if (parts.length >= 2) booking_id = parts[1];
     }] *)
Definition extract_webhook (external_id : jsval) : outcome jsval :=
  if truthy external_id then
    sw ← call_startsWith external_id "booking_";
    if (sw : bool) then
      parts ← call_split external_id "_";
      if (2 <=? length parts)%nat then mret (index parts 1) else mret JNull
    else mret JNull
  else mret JNull.

(** ** The bookings table *)

Module Store.

(** A row of [bookings], without its primary key [id] (the key of the
    table).  [columns] are the columns this server never names. *)
Record Booking := {
  payment_status : string;
  status : string;
  columns : list (string * jsval)
}.

(** What the database answers with when an update fails. *)
Record StoreError := {
  err_message : string;
  err_code : string
}.

Definition error_js (e : StoreError) : jsval :=
  JObject [("message", JString (err_message e)); ("code", JString (err_code e))].

Definition row_js (id : string) (b : Booking) : jsval :=
  JObject (("id", JString id)
           :: ("payment_status", JString (payment_status b))
           :: ("status", JString (status b))
           :: columns b).

(** The patch [{ payment_status: 'Paid', status: 'Confirmed' }] applied to
    a row *)
Definition paid_confirmed (b : Booking) : Booking :=
  {| payment_status := "Paid"; status := "Confirmed"; columns := columns b |}.

(** [.update(patch).eq('id', id)] on the table *)
Definition update_eq_id (patch : Booking → Booking) (id : string)
    (table : gmap string Booking) : gmap string Booking :=
  alter patch id table.

(** The rows [.select()] returns after [.eq('id', id)] *)
Definition select_eq_id (id : string) (table : gmap string Booking) : jsval :=
  match table !! id with
  | Some b => JArray [row_js id b]
  | None => JArray []
  end.

End Store.
Import Store.

(** ** The world a handler runs in *)

Inductive level := Log | Warn | Error.

(** A console line: the text, template literals evaluated, and the values
    printed after it. *)
Record LogLine := {
  line_level : level;
  line_text : string;
  line_args : list jsval
}.

Inductive method := GET | POST.

(** A call to the payment provider (the credential header is the same
    constant on every call). *)
Record Request := {
  req_method : method;
  req_url : string;
  req_payload : jsval
}.

(** The provider's side of a call: a 2xx answer with its body, or a
    failure, with the body of the answer when there was one. *)
Inductive reply :=
| Ok2xx (data : jsval)
| Failed (response_data : option jsval) (message : string).

Record World := {
  bookings : gmap string Booking;
  store_error : option StoreError;
  sent : list Request;
  console : list LogLine
}.

Definition set_bookings (t : gmap string Booking) (w : World) : World :=
  {| bookings := t; store_error := store_error w; sent := sent w;
     console := console w |}.

Definition add_sent (r : Request) (w : World) : World :=
  {| bookings := bookings w; store_error := store_error w;
     sent := sent w ++ [r]; console := console w |}.

Definition add_line (l : LogLine) (w : World) : World :=
  {| bookings := bookings w; store_error := store_error w; sent := sent w;
     console := console w ++ [l] |}.

Definition M (A : Type) : Type := World → outcome A * World.

#[export] Instance M_ret : MRet M := λ A a w, (Returned a, w).
#[export] Instance M_bind : MBind M := λ A B f m w,
  match m w with
  | (Returned a, w') => f a w'
  | (Thrown e, w') => (Thrown e, w')
  end.

Definition lift {A} (o : outcome A) : M A := λ w, (o, w).

(** [try { body } catch (error) { handler }] *)
Definition try_catch {A} (body : M A) (handler : exn → M A) : M A := λ w,
  match body w with
  | (Returned a, w') => (Returned a, w')
  | (Thrown e, w') => handler e w'
  end.

Definition console_line (lv : level) (text : string) (args : list jsval)
    : M unit := λ w,
  (Returned (), add_line {| line_level := lv; line_text := text;
                            line_args := args |} w).

(** [error.message] *)
Definition exn_message (e : exn) : string :=
  match e with
  | TypeError m => m
  | AxiosError _ m => m
  end.

(** [axios.get(url)] / [axios.post(url, payload)]: the call is recorded,
    the provider answers; the result is the axios response object. *)
Definition axios (xendit : Request → reply) (r : Request) : M jsval := λ w,
  match xendit r with
  | Ok2xx data => (Returned (JObject [("data", data)]), add_sent r w)
  | Failed resp m => (Thrown (AxiosError resp m), add_sent r w)
  end.

(** The [{ data, error }] a Supabase call resolves to. *)
Record StoreResult := {
  data : jsval;
  error : jsval
}.

(** [supabase.from('bookings').update({ payment_status: 'Paid',
    status: 'Confirmed' }).eq('id', booking_id)], followed by [.select()]
    when [returning].  [.eq] puts the filter value into the query by a
    template literal, which throws when the value has no string form.  A
    failing database changes nothing and answers with its error. *)
Definition supabase_update_paid (booking_id : jsval) (returning : bool)
    : M StoreResult := λ w,
  match ToString booking_id with
  | Thrown e => (Thrown e, w)
  | Returned id =>
      match store_error w with
      | Some e => (Returned {| data := JNull; error := error_js e |}, w)
      | None =>
          let table := update_eq_id paid_confirmed id (bookings w) in
          (Returned {| data := if returning then select_eq_id id table
                               else JNull;
                       error := JNull |},
           set_bookings table w)
      end
  end.

(** ** HTTP responses *)

Inductive Body :=
| JsonBody (v : jsval)
| TextBody (s : string).

Record Response := {
  code : Z;
  body : Body
}.

(** [res.json(v)] *)
Definition res_json (v : jsval) : Response :=
  {| code := 200; body := JsonBody v |}.
(** [res.status(c).json(v)] *)
Definition res_status_json (c : Z) (v : jsval) : Response :=
  {| code := c; body := JsonBody v |}.
(** [res.status(c).send(s)] *)
Definition res_status_send (c : Z) (s : string) : Response :=
  {| code := c; body := TextBody s |}.
(** [res.sendStatus(c)]: the status with its reason phrase as the body *)
Definition res_sendStatus (c : Z) : Response :=
  {| code := c;
     body := TextBody (if (c =? 200)%Z then "OK"
                       else if (c =? 500)%Z then "Internal Server Error"
                       else string_of_Z c) |}.

(** ** The handlers *)

Definition XENDIT_API_URL : string := "https://api.xendit.co/v2".

(** [process.env], as far as the handlers read it *)
Record Env := {
  FRONTEND_URL : option string
}.

Definition env_js (o : option string) : jsval :=
  match o with
  | Some s => JString s
  | None => JUndefined
  end.

(** The template literal of line 43, [booking_${booking_id}_${Date.now()}]:
    it throws when [booking_id] has no string form. *)
Definition external_id_template (now : N) (booking_id : jsval)
    : outcome string :=
  id_text ← ToString booking_id;
  mret ("booking_" ++ id_text ++ "_" ++ string_of_N now).

(** The object literal of lines 42-66, [external_id] being the value of the
    template literal of its first property. *)
Definition payload_literal (env : Env) (external_id : string)
    (booking_id amount description remarks customer_email : jsval) : jsval :=
  let frontendUrl :=
    to_string (or_else (env_js (FRONTEND_URL env))
                       (JString "http://localhost:5173")) in
  JObject [
    ("external_id", JString external_id);
    ("amount", amount);
    ("description", or_else description (JString "Event Booking"));
    ("invoice_duration", JNumber "86400");
    ("currency", JString "PHP");
    ("customer", JObject [("email", customer_email)]);
    ("success_redirect_url",
       JString (frontendUrl ++ "/payment-status?status=success"));
    ("failure_redirect_url",
       JString (frontendUrl ++ "/payment-status?status=failed"));
    ("items", JArray [JObject [
       ("name", or_else description (JString "Event Booking"));
       ("quantity", JNumber "1");
       ("price", amount);
       ("category", JString "Event")]]);
    ("fees", JArray []);
    ("metadata", JObject [("booking_id", booking_id); ("remarks", remarks)])
  ].

(** The payload of lines 42-66 for a [booking_id] whose string conversion
    returns: the one the handler sends whenever it sends one. *)
Definition invoice_payload (env : Env) (now : N)
    (booking_id amount description remarks customer_email : jsval) : jsval :=
  payload_literal env
    ("booking_" ++ to_string booking_id ++ "_" ++ string_of_N now)
    booking_id amount description remarks customer_email.

(** [POST /create-checkout-session], lines 33-87.  [now] is the reading of
    [Date.now()], a count of milliseconds since the epoch; [req_body] is
    [req.body]. *)
Definition create_checkout_session (env : Env) (now : N)
    (xendit : Request → reply) (req_body : jsval) : M Response :=
  try_catch
    (booking_id ← lift (get req_body "booking_id");
     amount ← lift (get req_body "amount");
     description ← lift (get req_body "description");
     remarks ← lift (get req_body "remarks");
     customer_email ← lift (get req_body "customer_email");
     console_line Log "Creating Xendit invoice for:"
       [JObject [("booking_id", booking_id); ("amount", amount)]];;
     external_id ← lift (external_id_template now booking_id);
     let payload := payload_literal env external_id booking_id amount
                      description remarks customer_email in
     response ← axios xendit
       {| req_method := POST; req_url := XENDIT_API_URL ++ "/invoices";
          req_payload := payload |};
     response_data ← lift (get response "data");
     invoice_url ← lift (get response_data "invoice_url");
     id ← lift (get response_data "id");
     mret (res_json (JObject [("data", JObject [("attributes", JObject [
             ("checkout_url", invoice_url);
             ("invoice_id", id)])])])))
    (λ e,
     console_line Error "Error creating Xendit invoice:"
       [match e with
        | AxiosError (Some d) _ => d
        | _ => JString (exn_message e)
        end];;
     mret (res_status_json 500
             (JObject [("error", JString "Failed to create invoice")]))).

(** [GET /verify-payment/:invoice_id], lines 90-123. *)
Definition verify_payment (xendit : Request → reply) (invoice_id : string)
    : M Response :=
  try_catch
    (console_line Log ("Verifying payment for invoice: " ++ invoice_id) [];;
     response ← axios xendit
       {| req_method := GET;
          req_url := XENDIT_API_URL ++ "/invoices/" ++ invoice_id;
          req_payload := JUndefined |};
     invoice ← lift (get response "data");
     status ← lift (get invoice "status");
     let fall_through : M Response :=
       mret (res_json (JObject [("status", status)])) in
     if strict_eq_string status "PAID" then
       external_id ← lift (get invoice "external_id");
       booking_id ← lift (extract_verify external_id);
       if truthy booking_id then
         r ← supabase_update_paid booking_id false;
         (if truthy (error r)
          then console_line Error "Supabase update error:" [error r]
          else mret ());;
         mret (res_json (JObject [("status", JString "PAID");
                                  ("booking_id", booking_id)]))
       else fall_through
     else fall_through)
    (λ e,
     console_line Error "Error verifying payment:" [JString (exn_message e)];;
     mret (res_status_json 500
             (JObject [("error", JString "Verification failed")]))).

(** What [console.error('Webhook error:', error)] prints of the error *)
Definition exn_js (e : exn) : jsval := JString (exn_message e).

(** [POST /webhook], lines 126-187.  [event] is [req.body]. *)
Definition webhook (event : jsval) : M Response :=
  try_catch
    (status ← lift (get event "status");
     status_text ← lift (ToString status);
     external_id ← lift (get event "external_id");
     external_id_text ← lift (ToString external_id);
     console_line Log ("Received webhook: " ++ status_text ++ " for invoice "
                       ++ external_id_text) [];;
     if strict_eq_string status "PAID" then
       booking_id ← lift (extract_webhook external_id);
       console_line Log "Extracted Booking ID from webhook:" [booking_id];;
       if truthy booking_id then
         booking_id_text ← lift (ToString booking_id);
         console_line Log ("Payment successful for booking " ++ booking_id_text
                           ++ ". Updating status...") [];;
         r ← supabase_update_paid booking_id true;
         if truthy (error r) then
           console_line Error "Error updating booking in Supabase:" [error r];;
           mret (res_status_send 500 "Database update failed")
         else
           console_line Log "Booking updated successfully:" [data r];;
           mret (res_sendStatus 200)
       else
         console_line Warn "No booking_id found. Full Payload:" [event];;
         mret (res_sendStatus 200)
     else mret (res_sendStatus 200))
    (λ e,
     console_line Error "Webhook error:" [exn_js e];;
     mret (res_sendStatus 500)).

(** A world for the examples: bookings 42 (unpaid, pending) and 7. *)
Definition row_pending : Booking :=
  {| payment_status := "Unpaid"; status := "Pending";
     columns := [("amount", JNumber "1000")] |}.

Definition world0 : World :=
  {| bookings := <["42" := row_pending]> (<["7" := row_pending]> ∅);
     store_error := None; sent := []; console := [] |}.

Definition paid_event (external_id : string) : jsval :=
  JObject [("status", JString "PAID"); ("external_id", JString external_id)].

(** ** Vocabulary of the properties *)

(** [c] occurs in [s] *)
Fixpoint occurs (c : ascii) (s : string) : bool :=
  match s with
  | "" => false
  | String d rest => Ascii.eqb d c || occurs c rest
  end.

Definition is_digit (c : ascii) : bool :=
  (48 <=? nat_of_ascii c)%nat && (nat_of_ascii c <=? 57)%nat.

(** [s] matches [^[0-9]+$] *)
Fixpoint all_digits (s : string) : bool :=
  match s with
  | "" => false
  | String c "" => is_digit c
  | String c rest => is_digit c && all_digits rest
  end.

(** [ext] matches [booking_<id>_<digits>] *)
Definition booking_id_digits (id ext : string) : Prop :=
  ∃ ts, ext = "booking_" ++ id ++ "_" ++ ts ∧ all_digits ts = true.

(** An identifier that is missing or falsy ([undefined], [null], the empty
    string, [0], [false]) or a string without the [booking_] prefix *)
Definition unrecognised (external_id : jsval) : Prop :=
  truthy external_id = false
  ∨ ∃ s, external_id = JString s ∧ startsWith s "booking_" = false.

(** The prefix is there and the id segment is empty: [booking_] alone, or
    [booking__<rest>] *)
Definition empty_id_segment (s : string) : Prop :=
  s = "booking_" ∨ ∃ rest, s = "booking__" ++ rest.

(** The table after a PAID event whose extraction gave [booking_id], on a
    database answering with [fault] *)
Definition reconciled (fault : option StoreError) (booking_id : jsval)
    (table : gmap string Booking) : gmap string Booking :=
  if truthy booking_id then
    match fault with
    | None => update_eq_id paid_confirmed (to_string booking_id) table
    | Some _ => table
    end
  else table.

(** The call [GET /invoices/<invoice_id>] that verify-payment makes *)
Definition invoice_request (invoice_id : string) : Request :=
  {| req_method := GET;
     req_url := XENDIT_API_URL ++ "/invoices/" ++ invoice_id;
     req_payload := JUndefined |}.

(** The answers of the two handlers on a PAID event whose extraction gave
    [booking_id] *)
Definition webhook_answer (fault : option StoreError) (booking_id : jsval)
    : Response :=
  if truthy booking_id then
    match fault with
    | None => res_sendStatus 200
    | Some _ => res_status_send 500 "Database update failed"
    end
  else res_sendStatus 200.

Definition verify_answer (booking_id : jsval) : Response :=
  if truthy booking_id then
    res_json (JObject [("status", JString "PAID"); ("booking_id", booking_id)])
  else res_json (JObject [("status", JString "PAID")]).

(** ** The remaining routes and configuration *)

(** [res.send(s)] *)
Definition res_send (s : string) : Response :=
  {| code := 200; body := TextBody s |}.

(** [GET /], lines 28-30 *)
Definition root_route : M Response :=
  mret (res_send "Booking System Backend is running").

(** [process.env.PORT || 4242], line 189 *)
Definition listen_port (env_port : option string) : jsval :=
  or_else (env_js env_port) (JNumber "4242").

(** The request [POST /invoices] that create-checkout-session makes *)
Definition create_request (payload : jsval) : Request :=
  {| req_method := POST; req_url := XENDIT_API_URL ++ "/invoices";
     req_payload := payload |}.

(** The two answers of create-checkout-session *)
Definition checkout_created (invoice_url id : jsval) : Response :=
  res_json (JObject [("data", JObject [("attributes", JObject [
    ("checkout_url", invoice_url); ("invoice_id", id)])])]).

Definition checkout_failed : Response :=
  res_status_json 500 (JObject [("error", JString "Failed to create invoice")]).

Definition verification_failed : Response :=
  res_status_json 500 (JObject [("error", JString "Verification failed")]).

(** The database in another state: what it answers the next call with *)
Definition set_store_error (fault : option StoreError) (w : World) : World :=
  {| bookings := bookings w; store_error := fault; sent := sent w;
     console := console w |}.

(** What a handler run does to the table: the patch on the rows of its
    target id when it has one and the database is healthy, nothing
    otherwise. *)
Definition patched (target : option string) (fault : option StoreError)
    (table : gmap string Booking) : gmap string Booking :=
  match target, fault with
  | Some id, None => update_eq_id paid_confirmed id table
  | _, _ => table
  end.

(** [typeof v === 'string'] *)
Definition is_string (v : jsval) : bool :=
  match v with
  | JString _ => true
  | _ => false
  end.

(** [v == null]: [undefined] or [null] *)
Definition nullish (v : jsval) : bool :=
  match v with
  | JUndefined | JNull => true
  | _ => false
  end.

(** * Properties *)

(** ** The scenarios of the specification, run on the model *)

Example extract_verify_42 :
  extract_verify (JString "booking_42_169000") = Returned (JString "42").
Proof. reflexivity. Qed.

Example extract_webhook_42 :
  extract_webhook (JString "booking_42_169000") = Returned (JString "42").
Proof. reflexivity. Qed.

(** Scenario 2: a PAID event for booking 42 marks that row, and only that
    row, paid and confirmed. *)
Example webhook_scenario2 :
  let '(r, w) := webhook (paid_event "booking_42_169000") world0 in
  r = Returned (res_sendStatus 200)
  ∧ bookings w !! "42" = Some (paid_confirmed row_pending)
  ∧ bookings w !! "7" = Some row_pending.
Proof. vm_compute. auto. Qed.

(** Scenario 3: a PENDING event for booking 42 changes nothing. *)
Example webhook_scenario3 :
  let event := JObject [("status", JString "PENDING");
                        ("external_id", JString "booking_42_169000")] in
  (webhook event world0).1 = Returned (res_sendStatus 200)
  ∧ bookings (webhook event world0).2 = bookings world0.
Proof. vm_compute. auto. Qed.

(** Scenario 4: a PAID event with the identifier [unrecognized]. *)
Example webhook_scenario4 :
  (webhook (paid_event "unrecognized") world0).1
    = Returned (res_sendStatus 200)
  ∧ bookings (webhook (paid_event "unrecognized") world0).2
    = bookings world0.
Proof. vm_compute. auto. Qed.

(** A PAID event whose [external_id] is the number 123: [startsWith] is
    not a function of a number, the [catch] answers 500. *)
Example webhook_numeric_identifier :
  let event := JObject [("status", JString "PAID");
                        ("external_id", JNumber "123")] in
  (webhook event world0).1 = Returned (res_sendStatus 500)
  ∧ bookings (webhook event world0).2 = bookings world0.
Proof. vm_compute. auto. Qed.

(** The provider is unreachable: verify-payment answers 500. *)
Example verify_provider_failure :
  (verify_payment (λ _, Failed None "Network Error") "inv_1" world0).1
  = Returned (res_status_json 500
                (JObject [("error", JString "Verification failed")])).
Proof. reflexivity. Qed.

(** A PENDING event whose status text cannot be had: the status is an
    object with a [toString] field, the template literal of the first log
    line throws and the [catch] answers 500. *)
Example webhook_unprintable_status :
  let event := JObject [("status", JObject [("toString", JNumber "0")]);
                        ("external_id", JString "booking_42_169000")] in
  (webhook event world0).1 = Returned (res_sendStatus 500)
  ∧ bookings (webhook event world0).2 = bookings world0.
Proof. vm_compute. auto. Qed.

(** ** Strings *)

Lemma split_cons_other sep c rest :
  Ascii.eqb c sep = false →
  split sep (String c rest) =
    match split sep rest with
    | [] => [String c ""]
    | piece :: pieces => String c piece :: pieces
    end.
Proof. intros H. simpl. by rewrite H. Qed.

Lemma split_length sep s : (1 ≤ length (split sep s))%nat.
Proof.
  induction s as [|c rest IH]; simpl; [lia|].
  destruct (Ascii.eqb c sep); simpl; [lia|].
  destruct (split sep rest); simpl in *; lia.
Qed.

(** Up to the first separator [split] copies its input. *)
Lemma split_first_piece sep id rest :
  occurs sep id = false →
  split sep (id ++ String sep rest) = id :: split sep rest.
Proof.
  induction id as [|c id IH]; simpl; intros H.
  - by rewrite Ascii.eqb_refl.
  - apply orb_false_iff in H as [Hc Hid].
    rewrite Hc, (IH Hid). done.
Qed.

Lemma split_booking rest :
  split "_" ("booking_" ++ rest) = "booking" :: split "_" rest.
Proof. apply (split_first_piece "_" "booking" rest). reflexivity. Qed.

Lemma prefix_app p s :
  String.prefix p s = true → ∃ rest, s = p ++ rest.
Proof.
  revert s. induction p as [|c p IH]; intros s H.
  - by exists s.
  - destruct s as [|d s]; simpl in H; [done|].
    destruct (ascii_dec c d) as [->|]; [|done].
    destruct (IH s H) as [rest ->]. by exists rest.
Qed.

Lemma prefix_app_true p rest : String.prefix p (p ++ rest) = true.
Proof.
  induction p as [|c p IH]; simpl; [by destruct rest|].
  destruct (ascii_dec c c); [done|congruence].
Qed.

Lemma startsWith_split s :
  startsWith s "booking_" = true →
  ∃ rest, s = "booking_" ++ rest
          ∧ split "_" s = "booking" :: split "_" rest.
Proof.
  intros H. apply prefix_app in H as [rest ->].
  exists rest. split; [done|]. apply split_booking.
Qed.

(** ** Identifier correlation *)

(** On a string with the prefix both extractions return what follows the
    prefix, up to the next separator. *)
Lemma extract_verify_prefixed rest :
  extract_verify (JString ("booking_" ++ rest))
  = Returned (index (split "_" rest) 0).
Proof.
  unfold extract_verify. cbn [truthy call_startsWith call_split].
  change (startsWith ("booking_" ++ rest) "booking_")
    with (String.prefix "booking_" ("booking_" ++ rest)).
  rewrite prefix_app_true. cbn [negb String.eqb Ascii.eqb append].
  cbn [mbind outcome_bind mret outcome_ret].
  by rewrite split_booking.
Qed.

Lemma extract_webhook_eq_verify external_id :
  extract_webhook external_id = extract_verify external_id.
Proof.
  unfold extract_verify, extract_webhook.
  destruct (truthy external_id); [|done].
  destruct external_id as [| | | |s| |]; try done.
  cbn [call_startsWith call_split mbind outcome_bind].
  destruct (startsWith s "booking_") eqn:Hp; [|done].
  destruct (startsWith_split s Hp) as (rest & _ & ->).
  pose proof (split_length "_" rest) as Hlen.
  cbn [length]. destruct (length (split "_" rest)); [lia|done].
Qed.

Lemma extract_webhook_prefixed rest :
  extract_webhook (JString ("booking_" ++ rest))
  = Returned (index (split "_" rest) 0).
Proof. rewrite extract_webhook_eq_verify. apply extract_verify_prefixed. Qed.

Lemma extract_verify_unrecognised external_id :
  unrecognised external_id → extract_verify external_id = Returned JNull.
Proof.
  intros [Ht|(s & -> & Hs)].
  - unfold extract_verify. by rewrite Ht.
  - unfold extract_verify. cbn [truthy call_startsWith mbind outcome_bind].
    rewrite Hs. by destruct (negb _).
Qed.

(** A truthy identifier that is no string has no [startsWith]: extraction
    throws a [TypeError]. *)
Lemma extract_verify_not_a_string external_id :
  truthy external_id = true →
  (∀ s, external_id ≠ JString s) →
  ∃ m, extract_verify external_id = Thrown (TypeError m).
Proof.
  intros Ht Hs. unfold extract_verify. rewrite Ht.
  destruct external_id; try done; try by eexists.
  by destruct (Hs s).
Qed.


(** What extraction can return: [null], or the first piece after the
    prefix. *)
Lemma extract_verify_result external_id booking_id :
  extract_verify external_id = Returned booking_id →
  booking_id = JNull
  ∨ ∃ rest, external_id = JString ("booking_" ++ rest)
            ∧ booking_id = index (split "_" rest) 0.
Proof.
  intros H. destruct (truthy external_id) eqn:Ht.
  - destruct external_id as [| | | |v| |];
      try (unfold extract_verify in H; rewrite Ht in H; discriminate H).
    destruct (startsWith v "booking_") eqn:Hp.
    + apply prefix_app in Hp as [rest ->]. right. exists rest.
      rewrite extract_verify_prefixed in H. by injection H as <-.
    + left. unfold extract_verify in H. rewrite Ht in H.
      cbn [call_startsWith mbind outcome_bind] in H. rewrite Hp in H.
      by injection H as <-.
  - left. unfold extract_verify in H. rewrite Ht in H. by injection H as <-.
Qed.

(** Extraction throws exactly on a truthy value that is no string. *)
Lemma extract_verify_thrown external_id e :
  extract_verify external_id = Thrown e →
  truthy external_id = true ∧ is_string external_id = false.
Proof.
  unfold extract_verify. destruct (truthy external_id) eqn:Ht; [|done].
  destruct external_id as [| | | |s| |]; try done.
  cbn [call_startsWith call_split mbind outcome_bind].
  by destruct (startsWith s "booking_").
Qed.

Lemma extract_verify_returned external_id booking_id :
  extract_verify external_id = Returned booking_id →
  truthy external_id = false ∨ is_string external_id = true.
Proof.
  intros H. destruct (truthy external_id) eqn:Ht; [|by left]. right.
  destruct external_id; try done;
    unfold extract_verify in H; rewrite Ht in H; done.
Qed.

(** ** String conversion *)

Lemma ToString_to_string v s : ToString v = Returned s → to_string v = s.
Proof. unfold to_string. by intros ->. Qed.

(** A falsy value and a string are primitives: their conversion returns. *)
Lemma ToString_falsy_or_string v :
  truthy v = false ∨ is_string v = true →
  ToString v = Returned (to_string v).
Proof. destruct v as [| |[]| | | |]; intros [?|?]; done. Qed.

(** So does the conversion of what extraction returns. *)
Lemma ToString_extracted external_id booking_id :
  extract_verify external_id = Returned booking_id →
  ToString booking_id = Returned (to_string booking_id).
Proof.
  intros [->|(rest & _ & ->)]%extract_verify_result; [done|].
  unfold index. by destruct (split "_" rest !! 0).
Qed.

(** ** Running the handlers *)

Ltac step :=
  unfold add_line, add_sent, set_bookings;
  cbn beta iota delta [fst snd bookings sent console store_error error data].

Ltac unfold_handler :=
  unfold webhook, verify_payment, create_checkout_session, try_catch,
    axios, supabase_update_paid, console_line, lift;
  unfold mbind, M_bind, mret, M_ret; step.

(** Runs the unfolded handler along the path that the equations among the
    hypotheses select. *)
Ltac run_path :=
  unfold_handler;
  repeat (first
    [ match goal with
      | H : ?l = _ |- context [?l] => rewrite H
      end
    | match goal with
      | |- context [{| req_method := GET;
                       req_url := XENDIT_API_URL ++ "/invoices/" ++ ?i;
                       req_payload := JUndefined |}] =>
          progress fold (invoice_request i)
      end
    | match goal with
      | |- context [{| req_method := POST;
                       req_url := XENDIT_API_URL ++ "/invoices";
                       req_payload := ?p |}] =>
          progress fold (create_request p)
      end
    | match goal with
      | |- context [get (JObject [("data", ?inv)]) "data"] =>
          change (get (JObject [("data", inv)]) "data") with (Returned inv)
      end
    | match goal with
      | |- context [ToString (JString ?s)] =>
          change (ToString (JString s)) with (Returned s)
      end
    | progress change (strict_eq_string (JString "PAID") "PAID") with true
    | match goal with
      | |- context [truthy (error_js ?e)] =>
          change (truthy (error_js e)) with true
      end
    | progress change (truthy JNull) with false ];
    step).

Lemma get_other_field o k v k' :
  get o k = Returned v → ∃ v', get o k' = Returned v'.
Proof. destruct o; simpl; intros H; try done; by eexists. Qed.

Lemma strict_eq_string_true v s :
  strict_eq_string v s = true ↔ v = JString s.
Proof.
  destruct v; simpl; try (split; [done|intros [=]]).
  - rewrite String.eqb_eq. split; [by intros ->|by intros [= ->]].
Qed.

(** An event that is not PAID: nothing but the console changes, whether or
    not the first log line can be printed. *)
Lemma webhook_not_paid_frame event status w :
  get event "status" = Returned status →
  strict_eq_string status "PAID" = false →
  bookings (webhook event w).2 = bookings w
  ∧ store_error (webhook event w).2 = store_error w
  ∧ sent (webhook event w).2 = sent w.
Proof.
  intros Hs Hp.
  destruct (get_other_field _ _ _ "external_id" Hs) as [ext He].
  destruct (ToString status) as [s1|e1] eqn:Hcs;
    [destruct (ToString ext) as [s2|e2] eqn:Hce|]; by run_path.
Qed.

(** It is answered 200 when the first log line can be printed. *)
Lemma webhook_not_paid event status external_id s1 s2 w :
  get event "status" = Returned status →
  get event "external_id" = Returned external_id →
  ToString status = Returned s1 →
  ToString external_id = Returned s2 →
  strict_eq_string status "PAID" = false →
  (webhook event w).1 = Returned (res_sendStatus 200).
Proof. intros Hs He Hcs Hce Hp. by run_path. Qed.

(** When the first log line cannot be printed the [catch] answers 500 and
    nothing is written, whatever the status is. *)
Lemma webhook_unprintable event status external_id w :
  get event "status" = Returned status →
  get event "external_id" = Returned external_id →
  (∃ e, ToString status = Thrown e) ∨ (∃ e, ToString external_id = Thrown e) →
  (webhook event w).1 = Returned (res_sendStatus 500)
  ∧ bookings (webhook event w).2 = bookings w
  ∧ store_error (webhook event w).2 = store_error w
  ∧ sent (webhook event w).2 = sent w.
Proof.
  intros Hs He [[e Hc]|[e Hc]].
  - by run_path.
  - destruct (ToString status) as [s1|e1] eqn:Hcs; by run_path.
Qed.

Lemma webhook_paid event external_id booking_id w :
  get event "status" = Returned (JString "PAID") →
  get event "external_id" = Returned external_id →
  extract_webhook external_id = Returned booking_id →
  (webhook event w).1 = Returned (webhook_answer (store_error w) booking_id)
  ∧ bookings (webhook event w).2
    = reconciled (store_error w) booking_id (bookings w)
  ∧ store_error (webhook event w).2 = store_error w
  ∧ sent (webhook event w).2 = sent w.
Proof.
  intros Hs He Hb. unfold webhook_answer, reconciled.
  pose proof Hb as Hb'. rewrite extract_webhook_eq_verify in Hb'.
  pose proof (ToString_falsy_or_string _ (extract_verify_returned _ _ Hb'))
    as Hce.
  pose proof (ToString_extracted _ _ Hb') as Hcb. clear Hb'.
  destruct (truthy booking_id) eqn:Ht; [|by run_path].
  destruct (store_error w) as [e|] eqn:Hf; by run_path.
Qed.

(** The unresolved branch, with what it prints. *)
Lemma webhook_paid_unresolved event external_id booking_id w :
  get event "status" = Returned (JString "PAID") →
  get event "external_id" = Returned external_id →
  extract_webhook external_id = Returned booking_id →
  truthy booking_id = false →
  webhook event w =
    (Returned (res_sendStatus 200),
     {| bookings := bookings w; store_error := store_error w;
        sent := sent w;
        console := console w ++ [
          {| line_level := Log;
             line_text := "Received webhook: PAID for invoice "
                          ++ to_string external_id;
             line_args := [] |};
          {| line_level := Log;
             line_text := "Extracted Booking ID from webhook:";
             line_args := [booking_id] |};
          {| line_level := Warn;
             line_text := "No booking_id found. Full Payload:";
             line_args := [event] |}] |}).
Proof.
  intros Hs He Hb Ht.
  pose proof Hb as Hb'. rewrite extract_webhook_eq_verify in Hb'.
  pose proof (ToString_falsy_or_string _ (extract_verify_returned _ _ Hb'))
    as Hce. clear Hb'.
  run_path. by rewrite <- !app_assoc.
Qed.

(** Extraction throws: the [catch] answers 500, nothing is written. *)
Lemma webhook_paid_thrown event external_id e w :
  get event "status" = Returned (JString "PAID") →
  get event "external_id" = Returned external_id →
  extract_webhook external_id = Thrown e →
  (webhook event w).1 = Returned (res_sendStatus 500)
  ∧ bookings (webhook event w).2 = bookings w.
Proof.
  intros Hs He Hb.
  destruct (ToString external_id) as [s2|e2] eqn:Hce; by run_path.
Qed.

(** The same for verify-payment, once the provider has answered the
    invoice request with [invoice]. *)
Section VerifyPayment.

Context (xendit : Request → reply) (invoice_id : string) (invoice : jsval).
Hypothesis provider_answers :
  xendit (invoice_request invoice_id) = Ok2xx invoice.

Lemma verify_not_paid status w :
  get invoice "status" = Returned status →
  strict_eq_string status "PAID" = false →
  (verify_payment xendit invoice_id w).1
    = Returned (res_json (JObject [("status", status)]))
  ∧ bookings (verify_payment xendit invoice_id w).2 = bookings w.
Proof. intros Hs Hp. by run_path. Qed.

Lemma verify_paid external_id booking_id w :
  get invoice "status" = Returned (JString "PAID") →
  get invoice "external_id" = Returned external_id →
  extract_verify external_id = Returned booking_id →
  (verify_payment xendit invoice_id w).1
    = Returned (verify_answer booking_id)
  ∧ bookings (verify_payment xendit invoice_id w).2
    = reconciled (store_error w) booking_id (bookings w)
  ∧ store_error (verify_payment xendit invoice_id w).2 = store_error w.
Proof.
  intros Hs He Hb. unfold verify_answer, reconciled.
  pose proof (ToString_extracted _ _ Hb) as Hcb.
  destruct (truthy booking_id) eqn:Ht; [|by run_path].
  destruct (store_error w) as [e|] eqn:Hf; by run_path.
Qed.

Lemma verify_paid_thrown external_id e w :
  get invoice "status" = Returned (JString "PAID") →
  get invoice "external_id" = Returned external_id →
  extract_verify external_id = Thrown e →
  (verify_payment xendit invoice_id w).1
    = Returned (res_status_json 500
                  (JObject [("error", JString "Verification failed")]))
  ∧ bookings (verify_payment xendit invoice_id w).2 = bookings w.
Proof. intros Hs He Hb. by run_path. Qed.

Lemma verify_status_thrown e w :
  get invoice "status" = Thrown e →
  bookings (verify_payment xendit invoice_id w).2 = bookings w.
Proof. intros Hs. by run_path. Qed.

End VerifyPayment.

Lemma reconciled_cases fault booking_id (table : gmap string Booking) :
  reconciled fault booking_id table = table
  ∨ ∃ id, reconciled fault booking_id table
          = update_eq_id paid_confirmed id table.
Proof.
  unfold reconciled. destruct (truthy booking_id); [|by left].
  destruct fault; [by left|right; by eexists].
Qed.

(** Whatever the event, the webhook leaves the table as it is or applies
    the one patch to the rows of one id. *)
Lemma webhook_effect event w :
  bookings (webhook event w).2 = bookings w
  ∨ ∃ id, bookings (webhook event w).2
          = update_eq_id paid_confirmed id (bookings w).
Proof.
  destruct (get event "status") as [status|e] eqn:Hs.
  - destruct (get_other_field _ _ _ "external_id" Hs) as [ext He].
    destruct (strict_eq_string status "PAID") eqn:Hp.
    + apply strict_eq_string_true in Hp as ->.
      destruct (extract_webhook ext) as [b|e] eqn:Hb.
      * destruct (webhook_paid _ _ _ w Hs He Hb) as (_ & -> & _).
        apply reconciled_cases.
      * left. by destruct (webhook_paid_thrown _ _ _ w Hs He Hb).
    + left. by destruct (webhook_not_paid_frame _ _ w Hs Hp) as (? & _).
  - left. by run_path.
Qed.

Lemma verify_effect xendit invoice_id w :
  bookings (verify_payment xendit invoice_id w).2 = bookings w
  ∨ ∃ id, bookings (verify_payment xendit invoice_id w).2
          = update_eq_id paid_confirmed id (bookings w).
Proof.
  destruct (xendit (invoice_request invoice_id)) as [invoice|r m] eqn:Hx.
  - destruct (get invoice "status") as [status|e] eqn:Hs.
    + destruct (get_other_field _ _ _ "external_id" Hs) as [ext He].
      destruct (strict_eq_string status "PAID") eqn:Hp.
      * apply strict_eq_string_true in Hp as ->.
        destruct (extract_verify ext) as [b|e] eqn:Hb.
        -- destruct (verify_paid _ _ _ Hx _ _ w Hs He Hb) as (_ & -> & _).
           apply reconciled_cases.
        -- left. by destruct (verify_paid_thrown _ _ _ Hx _ _ w Hs He Hb).
      * left. by destruct (verify_not_paid _ _ _ Hx _ w Hs Hp).
    + left. apply (verify_status_thrown _ _ _ Hx _ w Hs).
  - left. by run_path.
Qed.
(** ** The store update *)

Lemma paid_confirmed_idemp b : paid_confirmed (paid_confirmed b) = paid_confirmed b.
Proof. done. Qed.

Lemma update_eq_id_idemp id (table : gmap string Booking) :
  update_eq_id paid_confirmed id (update_eq_id paid_confirmed id table)
  = update_eq_id paid_confirmed id table.
Proof.
  unfold update_eq_id. apply map_eq. intros k.
  destruct (decide (id = k)) as [->|Hne].
  - rewrite !lookup_alter_eq. by destruct (table !! k).
  - by rewrite !lookup_alter_ne.
Qed.

Lemma update_eq_id_other id k (table : gmap string Booking) :
  id ≠ k → update_eq_id paid_confirmed id table !! k = table !! k.
Proof. intros H. unfold update_eq_id. by rewrite lookup_alter_ne. Qed.

Lemma update_eq_id_row id (table : gmap string Booking) :
  update_eq_id paid_confirmed id table !! id = paid_confirmed <$> table !! id.
Proof. unfold update_eq_id. by rewrite lookup_alter_eq. Qed.

Lemma reconciled_idemp fault booking_id (table : gmap string Booking) :
  reconciled fault booking_id (reconciled fault booking_id table)
  = reconciled fault booking_id table.
Proof.
  unfold reconciled. destruct (truthy booking_id); [|done].
  destruct fault; [done|]. apply update_eq_id_idemp.
Qed.

(** An event or invoice whose identifier did not resolve is answered 200
    by both handlers and nothing is written: whatever its status for
    verify-payment, whatever status the webhook can print. *)
Lemma webhook_unresolved event status s1 external_id booking_id w :
  get event "status" = Returned status →
  ToString status = Returned s1 →
  get event "external_id" = Returned external_id →
  extract_webhook external_id = Returned booking_id →
  truthy booking_id = false →
  (webhook event w).1 = Returned (res_sendStatus 200)
  ∧ bookings (webhook event w).2 = bookings w.
Proof.
  intros Hs Hcs He Hb Ht.
  destruct (strict_eq_string status "PAID") eqn:Hp.
  - apply strict_eq_string_true in Hp as ->.
    destruct (webhook_paid _ _ _ w Hs He Hb) as (-> & -> & _).
    unfold webhook_answer, reconciled. by rewrite Ht.
  - pose proof Hb as Hb'. rewrite extract_webhook_eq_verify in Hb'.
    pose proof (ToString_falsy_or_string _ (extract_verify_returned _ _ Hb'))
      as Hce.
    split; [by apply (webhook_not_paid _ _ _ _ _ w Hs He Hcs Hce)|].
    by destruct (webhook_not_paid_frame _ _ w Hs Hp) as (? & _).
Qed.

Lemma verify_unresolved xendit invoice_id invoice status external_id
    booking_id w :
  xendit (invoice_request invoice_id) = Ok2xx invoice →
  get invoice "status" = Returned status →
  get invoice "external_id" = Returned external_id →
  extract_verify external_id = Returned booking_id →
  truthy booking_id = false →
  (verify_payment xendit invoice_id w).1
    = Returned (res_json (JObject [("status", status)]))
  ∧ bookings (verify_payment xendit invoice_id w).2 = bookings w.
Proof.
  intros Hx Hs He Hb Ht.
  destruct (strict_eq_string status "PAID") eqn:Hp.
  - apply strict_eq_string_true in Hp as ->.
    destruct (verify_paid _ _ _ Hx _ _ w Hs He Hb) as (-> & -> & _).
    unfold verify_answer, reconciled. by rewrite Ht.
  - by destruct (verify_not_paid _ _ _ Hx _ w Hs Hp).
Qed.

(** ** Redelivery and frame *)

Lemma webhook_keeps_fault event w :
  store_error (webhook event w).2 = store_error w.
Proof.
  destruct (get event "status") as [status|e] eqn:Hs.
  - destruct (get_other_field _ _ _ "external_id" Hs) as [ext He].
    destruct (strict_eq_string status "PAID") eqn:Hp.
    + apply strict_eq_string_true in Hp as ->.
      destruct (extract_webhook ext) as [b|e] eqn:Hb.
      * by destruct (webhook_paid _ _ _ w Hs He Hb) as (_ & _ & ? & _).
      * destruct (ToString ext) as [s2|e2] eqn:Hce; by run_path.
    + by destruct (webhook_not_paid_frame _ _ w Hs Hp) as (_ & ? & _).
  - by run_path.
Qed.

(** A PAID event that resolves, on a healthy database: 200, the row of the
    booking id is patched, every other row is as it was. *)
Lemma webhook_paid_touches_one_row event external_id booking_id w :
  get event "status" = Returned (JString "PAID") →
  get event "external_id" = Returned external_id →
  extract_webhook external_id = Returned booking_id →
  truthy booking_id = true →
  store_error w = None →
  (webhook event w).1 = Returned (res_sendStatus 200)
  ∧ bookings (webhook event w).2 !! to_string booking_id
    = paid_confirmed <$> bookings w !! to_string booking_id
  ∧ ∀ k, k ≠ to_string booking_id →
         bookings (webhook event w).2 !! k = bookings w !! k.
Proof.
  intros Hs He Hb Ht Hf.
  destruct (webhook_paid _ _ _ w Hs He Hb) as (-> & -> & _).
  unfold webhook_answer, reconciled. rewrite Ht, Hf.
  split; [done|]. split; [apply update_eq_id_row|].
  intros k Hk. by apply update_eq_id_other.
Qed.

(** ** Decimal digits *)

Lemma all_digits_cons c s :
  is_digit c = true → all_digits s = true → all_digits (String c s) = true.
Proof.
  intros Hc Hs. destruct s as [|d s]; [done|].
  change (is_digit c && all_digits (String d s) = true).
  by rewrite Hc, Hs.
Qed.

Lemma all_digits_string_of_uint d :
  d ≠ Decimal.Nil → all_digits (NilEmpty.string_of_uint d) = true.
Proof.
  induction d as [|d IH|d IH|d IH|d IH|d IH|d IH|d IH|d IH|d IH|d IH];
    intros Hd; [done|..];
    (destruct d; [reflexivity|(apply all_digits_cons;
                                [reflexivity|by apply IH])..]).
Qed.

Lemma all_digits_string_of_N n : all_digits (string_of_N n) = true.
Proof.
  unfold string_of_N. apply all_digits_string_of_uint.
  destruct n as [|p]; [done|]. apply Unsigned.to_uint_nonnil.
Qed.

(** * The claims *)

(** ** Extraction of the booking id *)

(** C2, as stated, fails: for the id [a_b], whose external identifier is
    [booking_a_b_169000], both handlers extract [a], not [a_b]. *)
Lemma extract_id_with_delimiter_counterexample :
  extract_verify (JString ("booking_" ++ "a_b" ++ "_" ++ "169000"))
    = Returned (JString "a")
  ∧ extract_webhook (JString ("booking_" ++ "a_b" ++ "_" ++ "169000"))
    = Returned (JString "a")
  ∧ extract_verify (JString ("booking_" ++ "a_b" ++ "_" ++ "169000"))
    ≠ Returned (JString "a_b")
  ∧ extract_webhook (JString ("booking_" ++ "a_b" ++ "_" ++ "169000"))
    ≠ Returned (JString "a_b").
Proof. repeat split; [reflexivity..|discriminate|discriminate]. Qed.

(** C2, amended: for every external identifier [booking_<id>_<ts>] whose
    [<id>] does not contain the delimiter [_], the extraction of both
    handlers returns [<id>] exactly, whatever [<ts>] is. *)
Theorem extract_booking_id_exact id ts :
  occurs "_" id = false →
  extract_verify (JString ("booking_" ++ id ++ "_" ++ ts))
    = Returned (JString id)
  ∧ extract_webhook (JString ("booking_" ++ id ++ "_" ++ ts))
    = Returned (JString id).
Proof.
  intros Hid.
  rewrite extract_webhook_eq_verify, extract_verify_prefixed.
  change (id ++ "_" ++ ts) with (id ++ String "_" ts).
  by rewrite (split_first_piece _ _ _ Hid).
Qed.

Lemma extract_booking_id_exact_witness :
  occurs "_" "42" = false
  ∧ extract_verify (JString ("booking_" ++ "42" ++ "_" ++ "169000"))
    = Returned (JString "42")
  ∧ extract_webhook (JString ("booking_" ++ "42" ++ "_" ++ "169000"))
    = Returned (JString "42").
Proof.
  split; [reflexivity|].
  apply (extract_booking_id_exact "42" "169000"). reflexivity.
Defined.

(** C5, as stated, fails: the identifier [123], a number, lacks the prefix
    too, and on it the extraction of both handlers does not return [null]
    but throws ([startsWith] is not a function of a number); the webhook's
    [catch] answers 500. *)
Lemma extract_numeric_identifier_counterexample :
  extract_verify (JNumber "123")
    = Thrown (TypeError "startsWith is not a function")
  ∧ extract_webhook (JNumber "123")
    = Thrown (TypeError "startsWith is not a function")
  ∧ extract_webhook (JNumber "123") ≠ Returned JNull
  ∧ (webhook (JObject [("status", JString "PAID");
                       ("external_id", JNumber "123")]) world0).1
    = Returned (res_sendStatus 500).
Proof.
  split; [reflexivity|]. split; [reflexivity|].
  split; [discriminate|reflexivity].
Qed.

(** C5, amended: an external identifier that is missing or falsy
    ([undefined], [null], the empty string, [0], [false]) or a string
    without the [booking_] prefix makes the extraction of both handlers
    return [null] (it does not throw), and neither handler then touches the
    table, whatever the status of the event. *)
Theorem unrecognised_identifier_short_circuits external_id :
  unrecognised external_id →
  extract_verify external_id = Returned JNull
  ∧ extract_webhook external_id = Returned JNull
  ∧ (∀ event w,
       get event "external_id" = Returned external_id →
       bookings (webhook event w).2 = bookings w)
  ∧ (∀ xendit invoice_id invoice w,
       xendit (invoice_request invoice_id) = Ok2xx invoice →
       get invoice "external_id" = Returned external_id →
       bookings (verify_payment xendit invoice_id w).2 = bookings w).
Proof.
  intros Hu.
  pose proof (extract_verify_unrecognised _ Hu) as Hv.
  assert (extract_webhook external_id = Returned JNull) as Hw
    by by rewrite extract_webhook_eq_verify.
  split; [done|]. split; [done|]. split.
  - intros event w He.
    destruct (get_other_field _ _ _ "status" He) as [status Hs].
    destruct (strict_eq_string status "PAID") eqn:Hp.
    + apply strict_eq_string_true in Hp as ->.
      by destruct (webhook_paid _ _ _ w Hs He Hw) as (_ & -> & _).
    + by destruct (webhook_not_paid_frame _ _ w Hs Hp) as (? & _).
  - intros xendit invoice_id invoice w Hx He.
    destruct (get_other_field _ _ _ "status" He) as [status Hs].
    destruct (strict_eq_string status "PAID") eqn:Hp.
    + apply strict_eq_string_true in Hp as ->.
      by destruct (verify_paid _ _ _ Hx _ _ w Hs He Hv) as (_ & -> & _).
    + by destruct (verify_not_paid _ _ _ Hx _ w Hs Hp).
Qed.

Lemma unrecognised_identifier_witness :
  unrecognised (JString "unrecognized")
  ∧ unrecognised (JNumber "0")
  ∧ extract_verify (JString "unrecognized") = Returned JNull
  ∧ extract_webhook (JString "unrecognized") = Returned JNull
  ∧ extract_webhook (JNumber "0") = Returned JNull
  ∧ bookings (webhook (paid_event "unrecognized") world0).2 = bookings world0.
Proof.
  assert (unrecognised (JString "unrecognized")) as Hu.
  { right. exists "unrecognized". split; reflexivity. }
  assert (unrecognised (JNumber "0")) as H0 by (left; reflexivity).
  destruct (unrecognised_identifier_short_circuits _ Hu) as (Hv & Hw & Hh & _).
  destruct (unrecognised_identifier_short_circuits _ H0) as (_ & Hw0 & _).
  split; [exact Hu|]. split; [exact H0|]. split; [exact Hv|].
  split; [exact Hw|]. split; [exact Hw0|].
  apply Hh. reflexivity.
Defined.

(** ** The store update *)

(** C4: the update that marks a booking paid and confirmed is idempotent.
    On every table and for every id, applying it twice gives the table that
    applying it once gives; and the Supabase call made twice in a row leaves
    the world (table, requests sent, console) as the first call left it and
    answers the second time as it did the first. *)
Theorem mark_paid_confirmed_idempotent
    (id : string) (table : gmap string Booking)
    (booking_id : jsval) (returning : bool) (w : World) :
  update_eq_id paid_confirmed id (update_eq_id paid_confirmed id table)
    = update_eq_id paid_confirmed id table
  ∧ (supabase_update_paid booking_id returning
       (supabase_update_paid booking_id returning w).2).2
    = (supabase_update_paid booking_id returning w).2
  ∧ (supabase_update_paid booking_id returning
       (supabase_update_paid booking_id returning w).2).1
    = (supabase_update_paid booking_id returning w).1.
Proof.
  split; [apply update_eq_id_idemp|].
  unfold supabase_update_paid.
  destruct (ToString booking_id) as [key|e]; [|done].
  destruct (store_error w) as [e|] eqn:Hf; cbn [fst snd]; rewrite ?Hf.
  - done.
  - unfold set_bookings; cbn [store_error bookings sent console fst snd].
    rewrite Hf. cbn [fst snd]. by rewrite update_eq_id_idemp.
Qed.

(** ** The two entry points *)

(** C3: verify-payment and the webhook correlate and update alike.  On
    every value of the external identifier the two extractions give the same
    result; and when a PAID invoice and a PAID event carry the same
    identifier, which resolves to a booking id, each handler leaves the
    table that the other leaves (with a healthy database: the row of that
    id marked paid and confirmed), and running the second handler after the
    first, in either order, changes nothing more. *)
Theorem verify_and_webhook_share_logic
    xendit invoice_id invoice event external_id booking_id w :
  xendit (invoice_request invoice_id) = Ok2xx invoice →
  get invoice "status" = Returned (JString "PAID") →
  get invoice "external_id" = Returned external_id →
  get event "status" = Returned (JString "PAID") →
  get event "external_id" = Returned external_id →
  extract_verify external_id = Returned booking_id →
  truthy booking_id = true →
  let wv := (verify_payment xendit invoice_id w).2 in
  let ww := (webhook event w).2 in
  (∀ v, extract_verify v = extract_webhook v)
  ∧ bookings wv = bookings ww
  ∧ (store_error w = None →
     bookings wv
     = update_eq_id paid_confirmed (to_string booking_id) (bookings w))
  ∧ bookings (webhook event wv).2 = bookings wv
  ∧ bookings (verify_payment xendit invoice_id ww).2 = bookings ww
  ∧ bookings (webhook event wv).2
    = bookings (verify_payment xendit invoice_id ww).2.
Proof.
  intros Hx Hs He Hs' He' Hb Ht wv ww.
  assert (extract_webhook external_id = Returned booking_id) as Hb'
    by by rewrite extract_webhook_eq_verify.
  destruct (verify_paid _ _ _ Hx _ _ w Hs He Hb) as (_ & Hv & Hfv).
  destruct (webhook_paid _ _ _ w Hs' He' Hb') as (_ & Hw & Hfw & _).
  destruct (webhook_paid _ _ _ wv Hs' He' Hb') as (_ & Hwv & _).
  destruct (verify_paid _ _ _ Hx _ _ ww Hs He Hb) as (_ & Hvw & _).
  fold wv in Hv, Hfv. fold ww in Hw, Hfw.
  assert (bookings (webhook event wv).2 = bookings wv) as H1.
  { rewrite Hwv, Hfv, Hv. apply reconciled_idemp. }
  assert (bookings (verify_payment xendit invoice_id ww).2 = bookings ww) as H2.
  { rewrite Hvw, Hfw, Hw. apply reconciled_idemp. }
  split; [intros v; by rewrite extract_webhook_eq_verify|].
  split; [by rewrite Hv, Hw|].
  split; [intros Hf; rewrite Hv, Hf; unfold reconciled; by rewrite Ht|].
  split; [done|]. split; [done|].
  by rewrite H1, H2, Hv, Hw.
Qed.

Lemma verify_and_webhook_share_logic_witness :
  let xendit := λ _ : Request, Ok2xx (paid_event "booking_42_169000") in
  let event := paid_event "booking_42_169000" in
  bookings (verify_payment xendit "inv_1" world0).2
    = bookings (webhook event world0).2
  ∧ bookings (webhook event (verify_payment xendit "inv_1" world0).2).2
    = bookings (verify_payment xendit "inv_1" (webhook event world0).2).2.
Proof.
  intros xendit event.
  destruct (verify_and_webhook_share_logic xendit "inv_1" event event
              (JString "booking_42_169000") (JString "42") world0)
    as (_ & H1 & _ & _ & _ & H2); try reflexivity.
  split; [exact H1|exact H2].
Defined.

(** ** Failure of the store update *)

(** C1, on the code: when the store update answers with an error, the
    webhook responds 500 with the text [Database update failed], but
    verify-payment only prints the error and responds 200 with
    [{status: 'PAID', booking_id}]. *)
Theorem store_error_webhook_500_verify_200
    xendit invoice_id invoice event external_id booking_id e w :
  xendit (invoice_request invoice_id) = Ok2xx invoice →
  get invoice "status" = Returned (JString "PAID") →
  get invoice "external_id" = Returned external_id →
  get event "status" = Returned (JString "PAID") →
  get event "external_id" = Returned external_id →
  extract_verify external_id = Returned booking_id →
  truthy booking_id = true →
  store_error w = Some e →
  (webhook event w).1
    = Returned {| code := 500; body := TextBody "Database update failed" |}
  ∧ (verify_payment xendit invoice_id w).1
    = Returned {| code := 200;
                  body := JsonBody (JObject [("status", JString "PAID");
                                             ("booking_id", booking_id)]) |}.
Proof.
  intros Hx Hs He Hs' He' Hb Ht Hf.
  assert (extract_webhook external_id = Returned booking_id) as Hb'
    by by rewrite extract_webhook_eq_verify.
  destruct (verify_paid _ _ _ Hx _ _ w Hs He Hb) as (-> & _).
  destruct (webhook_paid _ _ _ w Hs' He' Hb') as (-> & _).
  unfold webhook_answer, verify_answer. by rewrite Ht, Hf.
Qed.

Lemma store_error_webhook_500_verify_200_witness :
  let down := {| bookings := bookings world0;
                 store_error := Some {| err_message := "connection refused";
                                        err_code := "08006" |};
                 sent := []; console := [] |} in
  let xendit := λ _ : Request, Ok2xx (paid_event "booking_42_169000") in
  (webhook (paid_event "booking_42_169000") down).1
    = Returned {| code := 500; body := TextBody "Database update failed" |}
  ∧ (verify_payment xendit "inv_1" down).1
    = Returned {| code := 200;
                  body := JsonBody (JObject [("status", JString "PAID");
                                             ("booking_id", JString "42")]) |}.
Proof.
  intros down xendit.
  apply (store_error_webhook_500_verify_200 xendit "inv_1"
           (paid_event "booking_42_169000") (paid_event "booking_42_169000")
           (JString "booking_42_169000") (JString "42")
           {| err_message := "connection refused"; err_code := "08006" |}
           down); reflexivity.
Defined.

(** ** The webhook on events it does not act on *)

(** C6, as stated, fails: the PAID event with [external_id: 123] resolves
    to no booking id (extraction throws) and is answered 500, not 200. *)
Lemma webhook_paid_numeric_identifier_counterexample :
  let event := JObject [("status", JString "PAID");
                        ("external_id", JNumber "123")] in
  get event "status" = Returned (JString "PAID")
  ∧ (∀ booking_id, extract_webhook (JNumber "123") ≠ Returned booking_id)
  ∧ (webhook event world0).1
    = Returned {| code := 500; body := TextBody "Internal Server Error" |}
  ∧ (webhook event world0).1
    ≠ Returned {| code := 200; body := TextBody "OK" |}.
Proof.
  cbv zeta. split; [reflexivity|]. split; [intros b; discriminate|].
  split; [reflexivity|discriminate].
Qed.

(** C6, amended: a PAID event whose external identifier is missing, falsy
    or a string, and resolves to no booking id, is acknowledged: the
    webhook answers 200, writes nothing to the table, calls nobody, and
    prints the payload under [No booking_id found. Full Payload:] as a
    warning. *)
Theorem webhook_unresolved_paid_event_acknowledged
    event external_id booking_id w :
  get event "status" = Returned (JString "PAID") →
  get event "external_id" = Returned external_id →
  truthy external_id = false ∨ is_string external_id = true →
  extract_webhook external_id = Returned booking_id →
  truthy booking_id = false →
  (webhook event w).1 = Returned {| code := 200; body := TextBody "OK" |}
  ∧ bookings (webhook event w).2 = bookings w
  ∧ sent (webhook event w).2 = sent w
  ∧ last (console (webhook event w).2)
    = Some {| line_level := Warn;
              line_text := "No booking_id found. Full Payload:";
              line_args := [event] |}.
Proof.
  intros Hs He _ Hb Ht.
  rewrite (webhook_paid_unresolved _ _ _ w Hs He Hb Ht).
  cbn [fst snd bookings sent console].
  repeat split.
  change [?a; ?b; ?c]%list with ([a; b] ++ [c])%list at 1.
  rewrite app_assoc. apply last_snoc.
Qed.

Lemma webhook_unresolved_paid_event_witness :
  (webhook (paid_event "unrecognized") world0).1
    = Returned {| code := 200; body := TextBody "OK" |}
  ∧ bookings (webhook (paid_event "unrecognized") world0).2 = bookings world0.
Proof.
  destruct (webhook_unresolved_paid_event_acknowledged
              (paid_event "unrecognized") (JString "unrecognized") JNull
              world0) as (H1 & H2 & _); try reflexivity.
  { right. reflexivity. }
  split; [exact H1|exact H2].
Defined.

(** C7, as stated, fails: the event whose status is the object
    [{toString: 0}] is not PAID, yet the template literal of the first log
    line cannot convert that status to a string, throws, and the [catch]
    answers 500. *)
Lemma webhook_unprintable_status_counterexample :
  let event := JObject [("status", JObject [("toString", JNumber "0")]);
                        ("external_id", JString "booking_42_169000")] in
  get event "status" = Returned (JObject [("toString", JNumber "0")])
  ∧ JObject [("toString", JNumber "0")] ≠ JString "PAID"
  ∧ (webhook event world0).1
    = Returned {| code := 500; body := TextBody "Internal Server Error" |}
  ∧ (webhook event world0).1
    ≠ Returned {| code := 200; body := TextBody "OK" |}.
Proof.
  cbv zeta. split; [reflexivity|]. split; [discriminate|].
  split; [reflexivity|discriminate].
Qed.

(** C7, amended: an event whose status is not PAID never mutates the
    store: every row of the table is as it was; and it is answered 200
    whenever its status and external identifier have a string form, which
    the first log line needs. *)
Theorem webhook_not_paid_no_mutation event status w :
  get event "status" = Returned status →
  status ≠ JString "PAID" →
  (∀ id, bookings (webhook event w).2 !! id = bookings w !! id)
  ∧ bookings (webhook event w).2 = bookings w
  ∧ ∀ external_id status_text external_id_text,
      get event "external_id" = Returned external_id →
      ToString status = Returned status_text →
      ToString external_id = Returned external_id_text →
      (webhook event w).1 = Returned {| code := 200; body := TextBody "OK" |}.
Proof.
  intros Hs Hne.
  assert (strict_eq_string status "PAID" = false) as Hp.
  { destruct (strict_eq_string status "PAID") eqn:Hp; [|done].
    by apply strict_eq_string_true in Hp. }
  destruct (webhook_not_paid_frame _ _ w Hs Hp) as (Hb & _).
  split; [by rewrite Hb|]. split; [done|].
  intros ext s1 s2 He Hcs Hce.
  by rewrite (webhook_not_paid _ _ _ _ _ w Hs He Hcs Hce Hp).
Qed.

Lemma webhook_not_paid_witness :
  let pending := JObject [("status", JString "PENDING");
                          ("external_id", JString "booking_42_169000")] in
  JString "PENDING" ≠ JString "PAID"
  ∧ (webhook pending world0).1
    = Returned {| code := 200; body := TextBody "OK" |}
  ∧ bookings (webhook pending world0).2 = bookings world0.
Proof.
  intros pending.
  assert (JString "PENDING" ≠ JString "PAID") as Hne by discriminate.
  split; [exact Hne|].
  destruct (webhook_not_paid_no_mutation pending (JString "PENDING") world0)
    as (_ & H2 & H1); [reflexivity|exact Hne|].
  split; [|exact H2].
  apply (H1 (JString "booking_42_169000") "PENDING" "booking_42_169000");
    reflexivity.
Defined.

(** ** What is written *)

Lemma update_eq_id_lookup id k (table : gmap string Booking) b' :
  update_eq_id paid_confirmed id table !! k = Some b' →
  ∃ b, table !! k = Some b ∧ (b' = b ∨ b' = paid_confirmed b).
Proof.
  destruct (decide (id = k)) as [->|Hne].
  - rewrite update_eq_id_row. destruct (table !! k) as [b|]; [|done].
    intros [= <-]. exists b. auto.
  - rewrite update_eq_id_other by done. intros H. exists b'. auto.
Qed.

Lemma effect_lookup (before after : gmap string Booking) k b' :
  (after = before ∨ ∃ id, after = update_eq_id paid_confirmed id before) →
  after !! k = Some b' →
  ∃ b, before !! k = Some b
       ∧ (b' = b
          ∨ (payment_status b' = "Paid" ∧ status b' = "Confirmed"
             ∧ columns b' = columns b)).
Proof.
  intros [->|[id ->]] H.
  - exists b'. auto.
  - destruct (update_eq_id_lookup _ _ _ _ H) as (b & Hb & [->| ->]);
      exists b; auto.
Qed.

(** C9: what a handler writes does not depend on the event.  A row found
    in the table after either handler was there before, and is either
    untouched or has [payment_status = Paid] and [status = Confirmed] with
    its other columns untouched; and two PAID events (or two PAID invoices)
    whose identifiers resolve to the same booking id leave the same table,
    whatever else they carry. *)
Theorem written_values_are_constants :
  (∀ event w id b',
     bookings (webhook event w).2 !! id = Some b' →
     ∃ b, bookings w !! id = Some b
          ∧ (b' = b
             ∨ (payment_status b' = "Paid" ∧ status b' = "Confirmed"
                ∧ columns b' = columns b)))
  ∧ (∀ xendit invoice_id w id b',
       bookings (verify_payment xendit invoice_id w).2 !! id = Some b' →
       ∃ b, bookings w !! id = Some b
            ∧ (b' = b
               ∨ (payment_status b' = "Paid" ∧ status b' = "Confirmed"
                  ∧ columns b' = columns b)))
  ∧ (∀ event1 event2 external_id1 external_id2 booking_id w,
       get event1 "status" = Returned (JString "PAID") →
       get event2 "status" = Returned (JString "PAID") →
       get event1 "external_id" = Returned external_id1 →
       get event2 "external_id" = Returned external_id2 →
       extract_webhook external_id1 = Returned booking_id →
       extract_webhook external_id2 = Returned booking_id →
       bookings (webhook event1 w).2 = bookings (webhook event2 w).2)
  ∧ (∀ xendit1 xendit2 invoice_id1 invoice_id2 invoice1 invoice2
       external_id1 external_id2 booking_id w,
       xendit1 (invoice_request invoice_id1) = Ok2xx invoice1 →
       xendit2 (invoice_request invoice_id2) = Ok2xx invoice2 →
       get invoice1 "status" = Returned (JString "PAID") →
       get invoice2 "status" = Returned (JString "PAID") →
       get invoice1 "external_id" = Returned external_id1 →
       get invoice2 "external_id" = Returned external_id2 →
       extract_verify external_id1 = Returned booking_id →
       extract_verify external_id2 = Returned booking_id →
       bookings (verify_payment xendit1 invoice_id1 w).2
       = bookings (verify_payment xendit2 invoice_id2 w).2).
Proof.
  split; [|split; [|split]].
  - intros event w id b'. apply effect_lookup, webhook_effect.
  - intros xendit invoice_id w id b'. apply effect_lookup, verify_effect.
  - intros e1 e2 x1 x2 b w Hs1 Hs2 He1 He2 Hb1 Hb2.
    destruct (webhook_paid _ _ _ w Hs1 He1 Hb1) as (_ & -> & _).
    by destruct (webhook_paid _ _ _ w Hs2 He2 Hb2) as (_ & -> & _).
  - intros x1 x2 i1 i2 v1 v2 e1 e2 b w Hx1 Hx2 Hs1 Hs2 He1 He2 Hb1 Hb2.
    destruct (verify_paid _ _ _ Hx1 _ _ w Hs1 He1 Hb1) as (_ & -> & _).
    by destruct (verify_paid _ _ _ Hx2 _ _ w Hs2 He2 Hb2) as (_ & -> & _).
Qed.

Lemma written_values_are_constants_witness :
  let event1 := JObject [("status", JString "PAID");
                         ("external_id", JString "booking_42_169000");
                         ("amount", JNumber "1000")] in
  let event2 := JObject [("status", JString "PAID");
                         ("external_id", JString "booking_42_170000_retry");
                         ("amount", JNumber "5");
                         ("metadata", JObject [("remarks", JString "vip")])] in
  bookings (webhook event1 world0).2 = bookings (webhook event2 world0).2.
Proof.
  intros event1 event2.
  destruct written_values_are_constants as (_ & _ & H & _).
  apply (H event1 event2 (JString "booking_42_169000")
           (JString "booking_42_170000_retry") (JString "42") world0);
    reflexivity.
Defined.

(** ** An empty id segment *)

(** C10: an external identifier with the prefix and an empty id segment
    ([booking_] or [booking__<rest>]) is extracted to the empty string,
    which is falsy: on a PAID event the webhook, and on an invoice of any
    status verify-payment, write nothing and answer 200, and they answer as
    they do on an identifier they do not recognise. *)
Theorem empty_id_segment_is_unresolved s :
  empty_id_segment s →
  extract_verify (JString s) = Returned (JString "")
  ∧ extract_webhook (JString s) = Returned (JString "")
  ∧ (∀ event w,
       get event "status" = Returned (JString "PAID") →
       get event "external_id" = Returned (JString s) →
       (webhook event w).1 = Returned {| code := 200; body := TextBody "OK" |}
       ∧ bookings (webhook event w).2 = bookings w
       ∧ ∀ event' unknown,
           get event' "status" = Returned (JString "PAID") →
           get event' "external_id" = Returned unknown →
           unrecognised unknown →
           (webhook event' w).1 = (webhook event w).1
           ∧ bookings (webhook event' w).2 = bookings (webhook event w).2)
  ∧ (∀ xendit invoice_id invoice status w,
       xendit (invoice_request invoice_id) = Ok2xx invoice →
       get invoice "status" = Returned status →
       get invoice "external_id" = Returned (JString s) →
       (verify_payment xendit invoice_id w).1
         = Returned {| code := 200;
                       body := JsonBody (JObject [("status", status)]) |}
       ∧ bookings (verify_payment xendit invoice_id w).2 = bookings w
       ∧ ∀ xendit' invoice' unknown,
           xendit' (invoice_request invoice_id) = Ok2xx invoice' →
           get invoice' "status" = Returned status →
           get invoice' "external_id" = Returned unknown →
           unrecognised unknown →
           (verify_payment xendit' invoice_id w).1
             = (verify_payment xendit invoice_id w).1
           ∧ bookings (verify_payment xendit' invoice_id w).2
             = bookings (verify_payment xendit invoice_id w).2).
Proof.
  intros Hs.
  assert (extract_verify (JString s) = Returned (JString "")) as Hv.
  { destruct Hs as [->|[rest ->]]; [reflexivity|].
    change ("booking__" ++ rest) with ("booking_" ++ String "_" rest).
    rewrite extract_verify_prefixed. reflexivity. }
  assert (extract_webhook (JString s) = Returned (JString "")) as Hw
    by by rewrite extract_webhook_eq_verify.
  split; [done|]. split; [done|]. split.
  - intros event w Hst He.
    destruct (webhook_unresolved _ _ "PAID" _ _ w Hst eq_refl He Hw eq_refl)
      as [H1 H2].
    split; [done|]. split; [done|].
    intros event' unknown Hst' He' Hu.
    assert (extract_webhook unknown = Returned JNull) as Hn
      by (rewrite extract_webhook_eq_verify;
          by apply extract_verify_unrecognised).
    destruct (webhook_unresolved _ _ "PAID" _ _ w Hst' eq_refl He' Hn eq_refl)
      as [H3 H4].
    by rewrite H1, H2, H3, H4.
  - intros xendit invoice_id invoice status w Hx Hst He.
    destruct (verify_unresolved _ _ _ _ _ _ w Hx Hst He Hv eq_refl)
      as [H1 H2].
    split; [done|]. split; [done|].
    intros xendit' invoice' unknown Hx' Hst' He' Hu.
    pose proof (extract_verify_unrecognised _ Hu) as Hn.
    destruct (verify_unresolved _ _ _ _ _ _ w Hx' Hst' He' Hn eq_refl)
      as [H3 H4].
    by rewrite H1, H2, H3, H4.
Qed.

Lemma empty_id_segment_witness :
  empty_id_segment "booking__169000"
  ∧ extract_webhook (JString "booking__169000") = Returned (JString "")
  ∧ (webhook (paid_event "booking__169000") world0).1
    = Returned {| code := 200; body := TextBody "OK" |}
  ∧ bookings (webhook (paid_event "booking__169000") world0).2
    = bookings world0
  ∧ (verify_payment (λ _, Ok2xx (paid_event "booking__169000"))
       "inv_1" world0).1
    = Returned {| code := 200;
                  body := JsonBody (JObject [("status", JString "PAID")]) |}.
Proof.
  assert (empty_id_segment "booking__169000") as Hs.
  { right. exists "169000". reflexivity. }
  destruct (empty_id_segment_is_unresolved _ Hs) as (_ & Hw & Hh & Hv).
  destruct (Hh (paid_event "booking__169000") world0)
    as (H1 & H2 & _); [reflexivity..|].
  destruct (Hv (λ _, Ok2xx (paid_event "booking__169000")) "inv_1"
              (paid_event "booking__169000") (JString "PAID") world0)
    as (H3 & _); [reflexivity..|].
  split; [exact Hs|]. split; [exact Hw|]. split; [exact H1|].
  split; [exact H2|exact H3].
Defined.

(** ** Invoice creation *)

Lemma payload_literal_external_id env external_id booking_id amount
    description remarks customer_email :
  get (payload_literal env external_id booking_id amount description remarks
         customer_email) "external_id"
  = Returned (JString external_id).
Proof. reflexivity. Qed.

Lemma invoice_payload_external_id env now booking_id amount description
    remarks customer_email :
  get (invoice_payload env now booking_id amount description remarks
         customer_email) "external_id"
  = Returned (JString ("booking_" ++ to_string booking_id ++ "_"
                       ++ string_of_N now)).
Proof. reflexivity. Qed.

(** When the booking id has a string form, the payload the handler builds
    is [invoice_payload]. *)
Lemma payload_literal_invoice_payload env now booking_id id_text amount
    description remarks customer_email :
  ToString booking_id = Returned id_text →
  payload_literal env ("booking_" ++ id_text ++ "_" ++ string_of_N now)
    booking_id amount description remarks customer_email
  = invoice_payload env now booking_id amount description remarks
      customer_email.
Proof.
  intros H. unfold invoice_payload. by rewrite (ToString_to_string _ _ H).
Qed.

(** C8, as stated, fails: a request whose [booking_id] is the object
    [{toString: 0}] has a [booking_id], yet the template literal of the
    external identifier cannot convert it to a string and throws: nothing
    is submitted to the provider, and although the provider would answer
    with an invoice the response is 500. *)
Lemma create_unprintable_booking_id_counterexample :
  let req_body := JObject [("booking_id", JObject [("toString", JNumber "0")]);
                           ("amount", JNumber "1000")] in
  let xendit := λ _ : Request,
    Ok2xx (JObject [("id", JString "inv_1");
                    ("invoice_url", JString "https://checkout/inv_1")]) in
  get req_body "booking_id" = Returned (JObject [("toString", JNumber "0")])
  ∧ sent (create_checkout_session {| FRONTEND_URL := None |} 169000 xendit
            req_body world0).2 = []
  ∧ (create_checkout_session {| FRONTEND_URL := None |} 169000 xendit
       req_body world0).1
    = Returned {| code := 500;
                  body := JsonBody (JObject [("error",
                            JString "Failed to create invoice")]) |}.
Proof. cbv zeta. split; [reflexivity|]. split; reflexivity. Qed.

(** C8, amended: for a request body whose [booking_id] has a string form,
    the handler sends one invoice request to the provider, whose
    [external_id] is [booking_<booking_id>_<digits>], the string form of
    the booking id and the digits of the clock reading; and when the
    provider answers with an invoice, the response is 200 with the body
    [{data: {attributes: {checkout_url, invoice_id}}}] holding the
    invoice's [invoice_url] and [id]. *)
Theorem create_checkout_session_external_id_and_response
    env now xendit req_body booking_id id_text w :
  get req_body "booking_id" = Returned booking_id →
  ToString booking_id = Returned id_text →
  ∃ payload,
    let request := {| req_method := POST;
                      req_url := "https://api.xendit.co/v2/invoices";
                      req_payload := payload |} in
    sent (create_checkout_session env now xendit req_body w).2
      = (sent w ++ [request])%list
    ∧ (∃ external_id,
         get payload "external_id" = Returned (JString external_id)
         ∧ booking_id_digits id_text external_id)
    ∧ (∀ invoice invoice_url id,
         xendit request = Ok2xx invoice →
         get invoice "invoice_url" = Returned invoice_url →
         get invoice "id" = Returned id →
         (create_checkout_session env now xendit req_body w).1
         = Returned {| code := 200;
                       body := JsonBody (JObject [("data",
                                 JObject [("attributes",
                                   JObject [("checkout_url", invoice_url);
                                            ("invoice_id", id)])])]) |}).
Proof.
  intros Hb Hc.
  destruct (get_other_field _ _ _ "amount" Hb) as [amount Ha].
  destruct (get_other_field _ _ _ "description" Hb) as [description Hd].
  destruct (get_other_field _ _ _ "remarks" Hb) as [remarks Hr].
  destruct (get_other_field _ _ _ "customer_email" Hb) as [email Hm].
  exists (payload_literal env
            ("booking_" ++ id_text ++ "_" ++ string_of_N now)
            booking_id amount description remarks email).
  cbv zeta.
  change "https://api.xendit.co/v2/invoices"
    with (XENDIT_API_URL ++ "/invoices").
  fold (create_request (payload_literal env
            ("booking_" ++ id_text ++ "_" ++ string_of_N now)
            booking_id amount description remarks email)).
  assert (external_id_template now booking_id
          = Returned ("booking_" ++ id_text ++ "_" ++ string_of_N now))
    as Ht by (unfold external_id_template; by rewrite Hc).
  split; [|split].
  - destruct (xendit (create_request (payload_literal env
              ("booking_" ++ id_text ++ "_" ++ string_of_N now)
              booking_id amount description remarks email)))
      as [invoice|r m] eqn:Hx.
    + destruct (get invoice "invoice_url") as [u|e] eqn:Hu.
      * destruct (get_other_field _ _ _ "id" Hu) as [i Hi]. by run_path.
      * by run_path.
    + by run_path.
  - eexists. split; [apply payload_literal_external_id|].
    exists (string_of_N now). split; [done|apply all_digits_string_of_N].
  - intros invoice invoice_url id Hx Hu Hi. by run_path.
Qed.

Lemma create_checkout_session_witness :
  let body42 := JObject [("booking_id", JString "42");
                         ("amount", JNumber "1000")] in
  let xendit := λ _ : Request,
    Ok2xx (JObject [("id", JString "inv_1");
                    ("invoice_url", JString "https://checkout/inv_1")]) in
  sent (create_checkout_session {| FRONTEND_URL := None |} 169000 xendit
          body42 world0).2
    = [{| req_method := POST;
          req_url := "https://api.xendit.co/v2/invoices";
          req_payload := invoice_payload {| FRONTEND_URL := None |} 169000
                           (JString "42") (JNumber "1000") JUndefined
                           JUndefined JUndefined |}]
  ∧ get (invoice_payload {| FRONTEND_URL := None |} 169000 (JString "42")
           (JNumber "1000") JUndefined JUndefined JUndefined) "external_id"
    = Returned (JString "booking_42_169000")
  ∧ (create_checkout_session {| FRONTEND_URL := None |} 169000 xendit
       body42 world0).1
    = Returned {| code := 200;
                  body := JsonBody (JObject [("data",
                            JObject [("attributes",
                              JObject [("checkout_url",
                                        JString "https://checkout/inv_1");
                                       ("invoice_id", JString "inv_1")])])]) |}.
Proof.
  intros body42 xendit.
  destruct (create_checkout_session_external_id_and_response
              {| FRONTEND_URL := None |} 169000%N xendit body42
              (JString "42") "42" world0 eq_refl eq_refl)
    as (payload & _ & _ & H').
  split; [reflexivity|]. split; [reflexivity|].
  apply (H' (JObject [("id", JString "inv_1");
                      ("invoice_url", JString "https://checkout/inv_1")])
            (JString "https://checkout/inv_1") (JString "inv_1"));
    reflexivity.
Defined.
(** * Further properties of the handlers *)

(** ** Pieces of a split *)

Lemma split_pieces_no_sep sep s piece :
  piece ∈ split sep s → occurs sep piece = false.
Proof.
  revert piece. induction s as [|c rest IH]; intros piece; simpl.
  - intros ->%list_elem_of_singleton. done.
  - destruct (Ascii.eqb c sep) eqn:Hc.
    + intros [->|H]%elem_of_cons; [done|by apply IH].
    + destruct (split sep rest) as [|p ps] eqn:Hsp.
      * intros ->%list_elem_of_singleton. simpl. by rewrite Hc.
      * intros [->|H]%elem_of_cons.
        -- simpl. rewrite Hc. apply IH. left.
        -- apply IH. by right.
Qed.

Lemma index_no_sep sep s i piece :
  index (split sep s) i = JString piece → occurs sep piece = false.
Proof.
  unfold index. destruct (split sep s !! i) as [p|] eqn:Hp; [|done].
  intros [= <-]. apply (split_pieces_no_sep sep s).
  by apply list_elem_of_lookup_2 in Hp.
Qed.

Lemma get_nullish o k :
  nullish o = true → ∃ e, get o k = Thrown e.
Proof. destruct o; try done; by eexists. Qed.

Lemma get_not_nullish o k :
  nullish o = false → ∃ v, get o k = Returned v.
Proof. destruct o; try done; by eexists. Qed.

Lemma get_thrown_nullish o k e : get o k = Thrown e → nullish o = true.
Proof. by destruct o. Qed.

Lemma get_returned_not_nullish o k v : get o k = Returned v → nullish o = false.
Proof. by destruct o. Qed.


(** ** Every path of the webhook *)

(** The paths of the webhook on [event] in [w], with the facts that select
    each one as hypotheses. *)
Ltac webhook_paths event w :=
  let Hs := fresh "Hs" in let He := fresh "He" in let Hp := fresh "Hp" in
  let Hcs := fresh "Hcs" in let Hce := fresh "Hce" in
  let Hb := fresh "Hb" in let Ht := fresh "Ht" in let Hf := fresh "Hf" in
  let Hcb := fresh "Hcb" in
  destruct (get event "status") as [?status|?e] eqn:Hs;
  [ destruct (get_other_field _ _ _ "external_id" Hs) as [?ext He];
    match type of Hs with _ = Returned ?st =>
    match type of He with _ = Returned ?x =>
      destruct (ToString st) as [?s1|?e1] eqn:Hcs;
      [ destruct (ToString x) as [?s2|?e2] eqn:Hce;
        [ destruct (strict_eq_string st "PAID") eqn:Hp;
          [ apply strict_eq_string_true in Hp; subst st;
            destruct (extract_webhook x) as [?b|?e] eqn:Hb;
            [ match type of Hb with _ = Returned ?bid =>
                pose proof Hb as Hcb;
                rewrite extract_webhook_eq_verify in Hcb;
                apply ToString_extracted in Hcb;
                destruct (truthy bid) eqn:Ht;
                [ destruct (store_error w) as [?f|] eqn:Hf | ]
              end
            | ]
          | ]
        | ]
      | ]
    end end
  | ].

(** X3: the webhook always answers, with 200 or 500, and never calls the
    provider.  It answers 500 exactly when the body is [null] or
    [undefined], or the status or the external identifier has no string
    form for the first log line, or the status is PAID and either the
    identifier is a truthy value that is no string, or a booking id was
    extracted and the store update failed. *)
Theorem webhook_answers_500_iff event w :
  ∃ r, (webhook event w).1 = Returned r
       ∧ (code r = 200%Z ∨ code r = 500%Z)
       ∧ sent (webhook event w).2 = sent w
       ∧ (code r = 500%Z ↔
          nullish event = true
          ∨ ∃ status external_id,
              get event "status" = Returned status
              ∧ get event "external_id" = Returned external_id
              ∧ ((∃ e, ToString status = Thrown e)
                 ∨ (∃ e, ToString external_id = Thrown e)
                 ∨ (status = JString "PAID"
                    ∧ ((truthy external_id = true
                        ∧ is_string external_id = false)
                       ∨ ∃ booking_id,
                           extract_webhook external_id = Returned booking_id
                           ∧ truthy booking_id = true
                           ∧ store_error w ≠ None)))).
Proof.
  webhook_paths event w.
  - (* PAID, resolved, the store fails *)
    exists (res_status_send 500 "Database update failed").
    split; [by run_path|]. split; [by right|]. split; [by run_path|].
    split; [|done]. intros _. right. exists (JString "PAID"), ext.
    split; [done|]. split; [done|]. right. right. split; [done|].
    right. exists b. by repeat split.
  - (* PAID, resolved, the store is healthy *)
    exists (res_sendStatus 200).
    split; [by run_path|]. split; [by left|]. split; [by run_path|].
    split; [done|].
    intros [Hn|(st & x & [= <-] & Hx & [[? ?]|[[? Hc]|(_ & [[Hy Hz]|(b' & _ & _ & Hne)])]])];
      try done.
    + by rewrite (get_returned_not_nullish _ _ _ Hs) in Hn.
    + rewrite He in Hx. injection Hx as <-. congruence.
    + rewrite He in Hx. injection Hx as <-.
      rewrite extract_webhook_eq_verify in Hb.
      destruct (extract_verify_returned _ _ Hb); congruence.
  - (* PAID, unresolved *)
    exists (res_sendStatus 200).
    split; [by run_path|]. split; [by left|]. split; [by run_path|].
    split; [done|].
    intros [Hn|(st & x & [= <-] & Hx & [[? ?]|[[? Hc]|(_ & [[Hy Hz]|(b' & Hb' & Ht' & _)])]])];
      try done.
    + by rewrite (get_returned_not_nullish _ _ _ Hs) in Hn.
    + rewrite He in Hx. injection Hx as <-. congruence.
    + rewrite He in Hx. injection Hx as <-.
      rewrite extract_webhook_eq_verify in Hb.
      destruct (extract_verify_returned _ _ Hb); congruence.
    + rewrite He in Hx. injection Hx as <-. congruence.
  - (* PAID, extraction throws *)
    exists (res_sendStatus 500).
    split; [by run_path|]. split; [by right|]. split; [by run_path|].
    split; [|done]. intros _. right. exists (JString "PAID"), ext.
    split; [done|]. split; [done|]. right. right. split; [done|]. left.
    rewrite extract_webhook_eq_verify in Hb.
    by apply extract_verify_thrown in Hb.
  - (* not PAID, printable *)
    exists (res_sendStatus 200).
    split; [by run_path|]. split; [by left|]. split; [by run_path|].
    split; [done|].
    intros [Hn|(st & x & [= <-] & Hx & [[? ?]|[[? Hc]|(-> & _)]])];
      try done.
    + by rewrite (get_returned_not_nullish _ _ _ Hs) in Hn.
    + congruence.
    + rewrite He in Hx. injection Hx as <-. congruence.
  - (* the external identifier has no string form *)
    exists (res_sendStatus 500).
    split; [by run_path|]. split; [by right|]. split; [by run_path|].
    split; [|done]. intros _. right. do 2 eexists.
    split; [reflexivity|]. split; [exact He|]. right. left. by exists e2.
  - (* the status has no string form *)
    exists (res_sendStatus 500).
    split; [by run_path|]. split; [by right|]. split; [by run_path|].
    split; [|done]. intros _. right. do 2 eexists.
    split; [reflexivity|]. split; [exact He|]. left. by exists e1.
  - (* no body *)
    exists (res_sendStatus 500).
    split; [by run_path|]. split; [by right|]. split; [by run_path|].
    split; [|done]. intros _. left. by apply get_thrown_nullish in Hs.
Qed.

(** ** Every path of verify-payment *)

Ltac verify_paths xendit invoice_id w :=
  let Hx := fresh "Hx" in
  let Hs := fresh "Hs" in let He := fresh "He" in let Hp := fresh "Hp" in
  let Hb := fresh "Hb" in let Ht := fresh "Ht" in let Hf := fresh "Hf" in
  let Hcb := fresh "Hcb" in
  destruct (xendit (invoice_request invoice_id)) as [?invoice|?d ?m] eqn:Hx;
  [ match type of Hx with _ = Ok2xx ?inv =>
      destruct (get inv "status") as [?status|?e] eqn:Hs;
      [ destruct (get_other_field _ _ _ "external_id" Hs) as [?ext He];
        match type of Hs with _ = Returned ?st =>
          destruct (strict_eq_string st "PAID") eqn:Hp;
          [ apply strict_eq_string_true in Hp; subst st;
            match type of He with _ = Returned ?x =>
              destruct (extract_verify x) as [?b|?e] eqn:Hb;
              [ match type of Hb with _ = Returned ?bid =>
                  pose proof (ToString_extracted _ _ Hb) as Hcb;
                  destruct (truthy bid) eqn:Ht;
                  [ destruct (store_error w) as [?f|] eqn:Hf | ]
                end
              | ]
            end
          | ]
        end
      | ]
    end
  | ].

(** X4: verify-payment always answers, with 200 or 500, after exactly one
    call to the provider, [GET /invoices/<invoice_id>].  It answers 500
    exactly when that call fails, or the invoice is [null] or [undefined],
    or the invoice is PAID with an identifier that is a truthy value but no
    string. *)
Theorem verify_answers_500_iff xendit invoice_id w :
  ∃ r, (verify_payment xendit invoice_id w).1 = Returned r
       ∧ (code r = 200%Z ∨ r = verification_failed)
       ∧ sent (verify_payment xendit invoice_id w).2
         = (sent w ++ [invoice_request invoice_id])%list
       ∧ (code r = 500%Z ↔
          (∃ d m, xendit (invoice_request invoice_id) = Failed d m)
          ∨ ∃ invoice,
              xendit (invoice_request invoice_id) = Ok2xx invoice
              ∧ (nullish invoice = true
                 ∨ ∃ external_id,
                     get invoice "status" = Returned (JString "PAID")
                     ∧ get invoice "external_id" = Returned external_id
                     ∧ truthy external_id = true
                     ∧ is_string external_id = false)).
Proof.
  verify_paths xendit invoice_id w.
  - (* PAID, resolved, the store fails: still 200 *)
    eexists. split; [by run_path|]. split; [by left|].
    split; [by run_path|]. split; [done|].
    intros [(? & ? & [=])|(i & [= <-] & [Hn|(x & _ & Hx' & Hy & Hz)])].
    + by rewrite (get_returned_not_nullish _ _ _ Hs) in Hn.
    + rewrite He in Hx'. injection Hx' as <-.
      destruct (extract_verify_returned _ _ Hb); congruence.
  - (* PAID, resolved, the store is healthy *)
    eexists. split; [by run_path|]. split; [by left|].
    split; [by run_path|]. split; [done|].
    intros [(? & ? & [=])|(i & [= <-] & [Hn|(x & _ & Hx' & Hy & Hz)])].
    + by rewrite (get_returned_not_nullish _ _ _ Hs) in Hn.
    + rewrite He in Hx'. injection Hx' as <-.
      destruct (extract_verify_returned _ _ Hb); congruence.
  - (* PAID, unresolved *)
    eexists. split; [by run_path|]. split; [by left|].
    split; [by run_path|]. split; [done|].
    intros [(? & ? & [=])|(i & [= <-] & [Hn|(x & _ & Hx' & Hy & Hz)])].
    + by rewrite (get_returned_not_nullish _ _ _ Hs) in Hn.
    + rewrite He in Hx'. injection Hx' as <-.
      destruct (extract_verify_returned _ _ Hb); congruence.
  - (* PAID, extraction throws *)
    exists verification_failed. split; [by run_path|].
    split; [by right|]. split; [by run_path|]. split; [|done].
    intros _. right. exists invoice. split; [done|]. right. exists ext.
    apply extract_verify_thrown in Hb as [? ?]. done.
  - (* not PAID *)
    eexists. split; [by run_path|]. split; [by left|].
    split; [by run_path|]. split; [done|].
    intros [(? & ? & [=])|(i & [= <-] & [Hn|(x & Hx' & _)])].
    + by rewrite (get_returned_not_nullish _ _ _ Hs) in Hn.
    + rewrite Hs in Hx'. injection Hx' as ->. done.
  - (* the invoice is null or undefined *)
    exists verification_failed. split; [by run_path|].
    split; [by right|]. split; [by run_path|]. split; [|done].
    intros _. right. exists invoice. split; [done|]. left.
    by apply get_thrown_nullish in Hs.
  - (* the provider fails *)
    exists verification_failed. split; [by run_path|].
    split; [by right|]. split; [by run_path|]. split; [|done].
    intros _. left. by exists d, m.
Qed.


(** ** How the handlers act on the table *)

Lemma update_eq_id_commute i j (table : gmap string Booking) :
  update_eq_id paid_confirmed i (update_eq_id paid_confirmed j table)
  = update_eq_id paid_confirmed j (update_eq_id paid_confirmed i table).
Proof.
  unfold update_eq_id. apply map_eq. intros k.
  destruct (decide (i = k)) as [->|Hi], (decide (j = k)) as [->|Hj];
    repeat first [rewrite lookup_alter_eq | rewrite lookup_alter_ne by done];
    done.
Qed.

Lemma update_eq_id_missing id (table : gmap string Booking) :
  table !! id = None → update_eq_id paid_confirmed id table = table.
Proof. apply alter_id'. Qed.

Lemma update_eq_id_dom id (table : gmap string Booking) :
  dom (update_eq_id paid_confirmed id table) = dom table.
Proof. apply dom_alter_L. Qed.

Lemma paid_confirmed_fixed b :
  payment_status b = "Paid" → status b = "Confirmed" → paid_confirmed b = b.
Proof. destruct b as [p s c]. simpl. by intros -> ->. Qed.

Lemma verify_keeps_fault xendit invoice_id w :
  store_error (verify_payment xendit invoice_id w).2 = store_error w.
Proof. verify_paths xendit invoice_id w; by run_path. Qed.

(** What a run does to the table is [patched]: the input fixes the target,
    the state of the database decides whether the patch is applied. *)
Lemma webhook_target event :
  ∃ target, ∀ w,
    bookings (webhook event w).2 = patched target (store_error w) (bookings w).
Proof.
  destruct (get event "status") as [status|e] eqn:Hs.
  - destruct (get_other_field _ _ _ "external_id" Hs) as [ext He].
    destruct (strict_eq_string status "PAID") eqn:Hp.
    + apply strict_eq_string_true in Hp as ->.
      destruct (extract_webhook ext) as [b|e] eqn:Hb.
      * exists (if truthy b then Some (to_string b) else None). intros w.
        destruct (webhook_paid _ _ _ w Hs He Hb) as (_ & -> & _).
        unfold reconciled, patched.
        by destruct (truthy b), (store_error w).
      * exists None. intros w.
        by destruct (webhook_paid_thrown _ _ _ w Hs He Hb).
    + exists None. intros w.
      by destruct (webhook_not_paid_frame _ _ w Hs Hp) as (? & _).
  - exists None. intros w. by run_path.
Qed.

Lemma verify_target xendit invoice_id :
  ∃ target, ∀ w,
    bookings (verify_payment xendit invoice_id w).2
    = patched target (store_error w) (bookings w).
Proof.
  destruct (xendit (invoice_request invoice_id)) as [invoice|d m] eqn:Hx.
  - destruct (get invoice "status") as [status|e] eqn:Hs.
    + destruct (get_other_field _ _ _ "external_id" Hs) as [ext He].
      destruct (strict_eq_string status "PAID") eqn:Hp.
      * apply strict_eq_string_true in Hp as ->.
        destruct (extract_verify ext) as [b|e] eqn:Hb.
        -- exists (if truthy b then Some (to_string b) else None). intros w.
           destruct (verify_paid _ _ _ Hx _ _ w Hs He Hb) as (_ & -> & _).
           unfold reconciled, patched.
           by destruct (truthy b), (store_error w).
        -- exists None. intros w.
           by destruct (verify_paid_thrown _ _ _ Hx _ _ w Hs He Hb).
      * exists None. intros w.
        by destruct (verify_not_paid _ _ _ Hx _ w Hs Hp).
    + exists None. intros w. apply (verify_status_thrown _ _ _ Hx _ w Hs).
  - exists None. intros w. by run_path.
Qed.

(** The same target twice: one patch, applied if the database was healthy
    either time. *)
Lemma patched_twice target fault1 fault2 (table : gmap string Booking) :
  patched target fault2 (patched target fault1 table)
  = patched target (match fault1 with None => None | Some _ => fault2 end)
      table.
Proof.
  destruct target as [id|], fault1, fault2; simpl; try done.
  apply update_eq_id_idemp.
Qed.

Lemma patched_commute target1 target2 fault1 fault2
    (table : gmap string Booking) :
  (fault1 = None ↔ fault2 = None) →
  patched target2 fault2 (patched target1 fault1 table)
  = patched target1 fault2 (patched target2 fault1 table).
Proof.
  intros [H1 H2].
  destruct target1 as [i|], target2 as [j|], fault1 as [f1|], fault2 as [f2|];
    simpl; try done.
  - by discriminate H2.
  - by discriminate H1.
  - apply update_eq_id_commute.
  - by discriminate H2.
  - by discriminate H1.
  - by discriminate H2.
  - by discriminate H1.
Qed.

(** X1: redelivery, with the database in any state at each delivery.  A
    webhook event delivered again, or a verification made again against
    the same provider answer, changes the table no further when the first
    run found the database healthy or the second finds it failing; and
    when the first run found it failing and the second finds it healthy,
    the second leaves the table that a single run on a healthy database
    leaves. *)
Theorem redelivery_under_any_database :
  (∀ event w fault2,
     let w1 := (webhook event w).2 in
     let w2 := (webhook event (set_store_error fault2 w1)).2 in
     (store_error w = None ∨ fault2 ≠ None → bookings w2 = bookings w1)
     ∧ (store_error w ≠ None → fault2 = None →
        bookings w2 = bookings (webhook event (set_store_error None w)).2))
  ∧ (∀ xendit invoice_id w fault2,
       let w1 := (verify_payment xendit invoice_id w).2 in
       let w2 := (verify_payment xendit invoice_id
                    (set_store_error fault2 w1)).2 in
       (store_error w = None ∨ fault2 ≠ None → bookings w2 = bookings w1)
       ∧ (store_error w ≠ None → fault2 = None →
          bookings w2
          = bookings (verify_payment xendit invoice_id
                        (set_store_error None w)).2)).
Proof.
  split.
  - intros event w fault2 w1 w2. subst w1 w2.
    destruct (webhook_target event) as [target E].
    rewrite !E. cbn [store_error bookings set_store_error].
    rewrite !E, patched_twice. split.
    + intros [->|Hf]; [done|]. by destruct (store_error w), fault2.
    + intros Hf ->. by destruct (store_error w), target.
  - intros xendit invoice_id w fault2 w1 w2. subst w1 w2.
    destruct (verify_target xendit invoice_id) as [target E].
    rewrite !E. cbn [store_error bookings set_store_error].
    rewrite !E, patched_twice. split.
    + intros [->|Hf]; [done|]. by destruct (store_error w), fault2.
    + intros Hf ->. by destruct (store_error w), target.
Qed.

(** X2: the order of arrival does not matter to the table when the
    database answers the first and the second call alike (healthy at both,
    or failing at both): any two webhook events, and any webhook event and
    any verification, then leave the same table whichever runs first. *)
Theorem deliveries_commute fault1 fault2 :
  (fault1 = None ↔ fault2 = None) →
  (∀ event1 event2 w,
     bookings (webhook event2 (set_store_error fault2
                 (webhook event1 (set_store_error fault1 w)).2)).2
     = bookings (webhook event1 (set_store_error fault2
                   (webhook event2 (set_store_error fault1 w)).2)).2)
  ∧ (∀ event xendit invoice_id w,
       bookings (verify_payment xendit invoice_id (set_store_error fault2
                   (webhook event (set_store_error fault1 w)).2)).2
       = bookings (webhook event (set_store_error fault2
                     (verify_payment xendit invoice_id
                        (set_store_error fault1 w)).2)).2).
Proof.
  intros Hf. split.
  - intros event1 event2 w.
    destruct (webhook_target event1) as [t1 E1].
    destruct (webhook_target event2) as [t2 E2].
    rewrite !E1, !E2. cbn [store_error bookings set_store_error].
    rewrite !E1, !E2. cbn [store_error bookings set_store_error].
    by apply patched_commute.
  - intros event xendit invoice_id w.
    destruct (webhook_target event) as [t1 E1].
    destruct (verify_target xendit invoice_id) as [t2 E2].
    rewrite !E1, !E2. cbn [store_error bookings set_store_error].
    rewrite !E1, !E2. cbn [store_error bookings set_store_error].
    by apply patched_commute.
Qed.

Lemma deliveries_commute_witness :
  let paid42 := paid_event "booking_42_169000" in
  let paid7 := paid_event "booking_7_169001" in
  bookings (webhook paid7 (webhook paid42 world0).2).2
  = bookings (webhook paid42 (webhook paid7 world0).2).2.
Proof.
  intros paid42 paid7.
  destruct (deliveries_commute None None (conj (λ _, eq_refl) (λ _, eq_refl)))
    as [H _].
  exact (H paid42 paid7 world0).
Defined.

(** ** Every path of create-checkout-session *)

(** X5: create-checkout-session never touches the table.  Without a body,
    or with a [booking_id] that has no string form, it answers 500 and
    calls nobody; otherwise it sends exactly one invoice request and
    answers 200 with the invoice's [invoice_url] and [id], unless the call
    fails or its answer body is [null] or [undefined], where it answers the
    fixed 500 [{error: 'Failed to create invoice'}]. *)
Theorem create_checkout_session_outcomes env now xendit req_body w :
  let run := create_checkout_session env now xendit req_body w in
  bookings run.2 = bookings w
  ∧ store_error run.2 = store_error w
  ∧ ((nullish req_body = true
      ∧ run.1 = Returned checkout_failed
      ∧ sent run.2 = sent w)
     ∨ (∃ booking_id e,
          get req_body "booking_id" = Returned booking_id
          ∧ ToString booking_id = Thrown e
          ∧ run.1 = Returned checkout_failed
          ∧ sent run.2 = sent w)
     ∨ (∃ booking_id id_text payload,
          get req_body "booking_id" = Returned booking_id
          ∧ ToString booking_id = Returned id_text
          ∧ get payload "external_id"
            = Returned (JString ("booking_" ++ id_text ++ "_"
                                 ++ string_of_N now))
          ∧ sent run.2 = (sent w ++ [create_request payload])%list
          ∧ match xendit (create_request payload) with
            | Failed _ _ => run.1 = Returned checkout_failed
            | Ok2xx invoice =>
                if nullish invoice then run.1 = Returned checkout_failed
                else ∃ invoice_url id,
                       get invoice "invoice_url" = Returned invoice_url
                       ∧ get invoice "id" = Returned id
                       ∧ run.1 = Returned (checkout_created invoice_url id)
            end)).
Proof.
  cbv zeta.
  destruct (get req_body "booking_id") as [booking_id|e] eqn:Hb.
  - destruct (get_other_field _ _ _ "amount" Hb) as [amount Ha].
    destruct (get_other_field _ _ _ "description" Hb) as [description Hd].
    destruct (get_other_field _ _ _ "remarks" Hb) as [remarks Hr].
    destruct (get_other_field _ _ _ "customer_email" Hb) as [email Hm].
    destruct (ToString booking_id) as [id_text|e] eqn:Hc.
    + assert (external_id_template now booking_id
              = Returned ("booking_" ++ id_text ++ "_" ++ string_of_N now))
        as Ht by (unfold external_id_template; by rewrite Hc).
      set (payload := payload_literal env
             ("booking_" ++ id_text ++ "_" ++ string_of_N now)
             booking_id amount description remarks email).
      destruct (xendit (create_request payload)) as [invoice|d m] eqn:Hx;
        subst payload.
      * destruct (get invoice "invoice_url") as [url|e] eqn:Hu.
        -- destruct (get_other_field _ _ _ "id" Hu) as [id Hi].
           split; [by run_path|]. split; [by run_path|].
           right. right. eexists _, id_text, _.
           split; [reflexivity|]. split; [exact Hc|].
           split; [apply payload_literal_external_id|].
           split; [by run_path|]. rewrite Hx.
           rewrite (get_returned_not_nullish _ _ _ Hu).
           exists url, id. split; [done|]. split; [done|]. by run_path.
        -- split; [by run_path|]. split; [by run_path|].
           right. right. eexists _, id_text, _.
           split; [reflexivity|]. split; [exact Hc|].
           split; [apply payload_literal_external_id|].
           split; [by run_path|]. rewrite Hx.
           rewrite (get_thrown_nullish _ _ _ Hu). by run_path.
      * split; [by run_path|]. split; [by run_path|].
        right. right. eexists _, id_text, _.
        split; [reflexivity|]. split; [exact Hc|].
        split; [apply payload_literal_external_id|].
        split; [by run_path|]. rewrite Hx. by run_path.
    + assert (external_id_template now booking_id = Thrown e) as Ht
        by (unfold external_id_template; by rewrite Hc).
      split; [by run_path|]. split; [by run_path|].
      right. left. eexists _, e. split; [reflexivity|]. split; [done|].
      split; by run_path.
  - split; [by run_path|]. split; [by run_path|].
    left. split; [by apply get_thrown_nullish in Hb|].
    split; by run_path.
Qed.

(** ** Invariants of the table *)

Lemma effect_keeps_rows (before after : gmap string Booking) :
  (after = before ∨ ∃ id, after = update_eq_id paid_confirmed id before) →
  dom after = dom before
  ∧ ∀ k b, before !! k = Some b →
      ∃ b', after !! k = Some b'
            ∧ columns b' = columns b
            ∧ (payment_status b = "Paid" → payment_status b' = "Paid")
            ∧ (status b = "Confirmed" → status b' = "Confirmed").
Proof.
  intros [->|[id ->]].
  - split; [done|]. intros k b Hk. by exists b.
  - split; [apply update_eq_id_dom|]. intros k b Hk.
    destruct (decide (id = k)) as [->|Hne].
    + exists (paid_confirmed b). rewrite update_eq_id_row, Hk. done.
    + exists b. by rewrite update_eq_id_other.
Qed.

(** X6: no handler loses or reverts a booking.  After the webhook or
    verify-payment, on any input, the table has the same keys; every row
    keeps its other columns, a [payment_status] that was [Paid] is still
    [Paid] and a [status] that was [Confirmed] is still [Confirmed]. *)
Theorem rows_are_never_lost_or_reverted :
  (∀ event w,
     dom (bookings (webhook event w).2) = dom (bookings w)
     ∧ ∀ id b, bookings w !! id = Some b →
         ∃ b', bookings (webhook event w).2 !! id = Some b'
               ∧ columns b' = columns b
               ∧ (payment_status b = "Paid" → payment_status b' = "Paid")
               ∧ (status b = "Confirmed" → status b' = "Confirmed"))
  ∧ (∀ xendit invoice_id w,
       dom (bookings (verify_payment xendit invoice_id w).2) = dom (bookings w)
       ∧ ∀ id b, bookings w !! id = Some b →
           ∃ b', bookings (verify_payment xendit invoice_id w).2 !! id
                 = Some b'
                 ∧ columns b' = columns b
                 ∧ (payment_status b = "Paid" → payment_status b' = "Paid")
                 ∧ (status b = "Confirmed" → status b' = "Confirmed")).
Proof.
  split.
  - intros event w. apply effect_keeps_rows, webhook_effect.
  - intros xendit invoice_id w. apply effect_keeps_rows, verify_effect.
Qed.

(** ** What extraction returns *)

(** The first piece of a split is the input up to its first separator. *)
Lemma split_first sep s :
  ∃ piece pieces,
    split sep s = piece :: pieces
    ∧ occurs sep piece = false
    ∧ ((s = piece ∧ pieces = []) ∨ ∃ rest, s = piece ++ String sep rest).
Proof.
  induction s as [|c s (p & ps & Hsp & Hp & Hs)].
  - exists "", []. split; [done|]. split; [done|]. by left.
  - simpl. destruct (Ascii.eqb c sep) eqn:Hc.
    + apply Ascii.eqb_eq in Hc as ->.
      exists "", (split sep s). split; [done|]. split; [done|].
      right. by exists s.
    + rewrite Hsp. exists (String c p), ps. split; [done|].
      split; [simpl; by rewrite Hc|].
      destruct Hs as [[-> ->]|[rest ->]]; [by left|right; by exists rest].
Qed.

Lemma split_no_sep sep s : occurs sep s = false → split sep s = [s].
Proof.
  induction s as [|c s IH]; simpl; [done|].
  intros [Hc Hs]%orb_false_iff. by rewrite Hc, (IH Hs).
Qed.

Lemma append_empty_r s : s ++ "" = s.
Proof.
  induction s as [|c s IH]; [done|].
  change (String c (s ++ "") = String c s). by f_equal.
Qed.

(** X7: what the extraction of the two handlers returns.  It returns the
    string [s] exactly on the identifiers [booking_<s>] and
    [booking_<s>_<anything>] where [s] holds no [_]; every other result is
    [null] (never [undefined]). *)
Theorem extract_returns_string_iff external_id s :
  (extract_webhook external_id = Returned (JString s)
   ↔ occurs "_" s = false
     ∧ ∃ rest, external_id = JString ("booking_" ++ s ++ rest)
               ∧ (rest = "" ∨ ∃ r, rest = String "_" r))
  ∧ (extract_verify external_id = extract_webhook external_id)
  ∧ ∀ booking_id,
      extract_webhook external_id = Returned booking_id →
      booking_id = JNull ∨ ∃ s', booking_id = JString s'.
Proof.
  rewrite extract_webhook_eq_verify. split; [split|split; [done|]].
  - intros H.
    destruct (extract_verify_result _ _ H) as [[=]|(rest0 & -> & Hi)].
    destruct (split_first "_" rest0) as (p & ps & Hsp & Hp & Hs).
    unfold index in Hi. rewrite Hsp in Hi. injection Hi as ->.
    split; [done|].
    destruct Hs as [[-> _]|[r ->]].
    + exists "". rewrite append_empty_r. auto.
    + exists (String "_" r). split; [done|]. right. by exists r.
  - intros (Hs & rest & -> & [->|[r ->]]).
    + rewrite append_empty_r, extract_verify_prefixed.
      by rewrite split_no_sep.
    + rewrite extract_verify_prefixed.
      by rewrite (split_first_piece _ _ _ Hs).
  - intros b H.
    destruct (extract_verify_result _ _ H) as [->|(rest0 & -> & ->)];
      [by left|right].
    destruct (split_first "_" rest0) as (p & ps & Hsp & _).
    unfold index. rewrite Hsp. by exists p.
Qed.


(** ** From the created identifier back to the booking *)

(** X8: the identifier that invoice creation builds leads back to the
    booking.  When [booking_id] has a string form that holds no [_] (the
    number 42 has [42], the number 1e21 has [1e+21]), the template literal
    of line 43 gives an [external_id] from which both handlers extract
    exactly that string form, whatever the clock reads. *)
Theorem created_identifier_round_trip now booking_id id_text :
  ToString booking_id = Returned id_text →
  occurs "_" id_text = false →
  ∃ external_id,
    external_id_template now booking_id = Returned external_id
    ∧ extract_webhook (JString external_id) = Returned (JString id_text)
    ∧ extract_verify (JString external_id) = Returned (JString id_text).
Proof.
  intros Hc Hid. eexists. split.
  - unfold external_id_template. rewrite Hc. reflexivity.
  - rewrite extract_webhook_eq_verify, extract_verify_prefixed.
    change (?a ++ "_" ++ ?b) with (a ++ String "_" b).
    by rewrite (split_first_piece _ _ _ Hid).
Qed.

Lemma created_identifier_round_trip_witness :
  external_id_template 169000 (JNumber "1e+21")
    = Returned "booking_1e+21_169000"
  ∧ extract_webhook (JString "booking_1e+21_169000")
    = Returned (JString "1e+21")
  ∧ extract_verify (JString "booking_1e+21_169000")
    = Returned (JString "1e+21").
Proof.
  destruct (created_identifier_round_trip 169000 (JNumber "1e+21") "1e+21"
              eq_refl eq_refl) as (ext & H1 & H2 & H3).
  assert (ext = "booking_1e+21_169000") as -> by (by injection H1 as <-).
  split; [reflexivity|]. split; [exact H2|exact H3].
Defined.

Lemma create_sends env now xendit req_body booking_id id_text w :
  get req_body "booking_id" = Returned booking_id →
  ToString booking_id = Returned id_text →
  ∃ amount description remarks customer_email,
    sent (create_checkout_session env now xendit req_body w).2
    = (sent w ++ [create_request
                    (payload_literal env
                       ("booking_" ++ id_text ++ "_" ++ string_of_N now)
                       booking_id amount description remarks
                       customer_email)])%list.
Proof.
  intros Hb Hc.
  destruct (get_other_field _ _ _ "amount" Hb) as [amount Ha].
  destruct (get_other_field _ _ _ "description" Hb) as [description Hd].
  destruct (get_other_field _ _ _ "remarks" Hb) as [remarks Hr].
  destruct (get_other_field _ _ _ "customer_email" Hb) as [email Hm].
  exists amount, description, remarks, email.
  assert (external_id_template now booking_id
          = Returned ("booking_" ++ id_text ++ "_" ++ string_of_N now))
    as Ht by (unfold external_id_template; by rewrite Hc).
  destruct (xendit (create_request
              (payload_literal env
                 ("booking_" ++ id_text ++ "_" ++ string_of_N now)
                 booking_id amount description remarks email)))
    as [invoice|d m] eqn:Hx.
  - destruct (get invoice "invoice_url") as [url|e] eqn:Hu.
    + destruct (get_other_field _ _ _ "id" Hu) as [id Hi]. by run_path.
    + by run_path.
  - by run_path.
Qed.

(** X9: invoice creation and the webhook compose.  For a request whose
    [booking_id] has a non-empty string form without [_], the [external_id]
    sent to the provider is such that any PAID event carrying it back, on a
    healthy database, is answered 200, sets [payment_status] to [Paid] and
    [status] to [Confirmed] on the row whose id is that string form, keeping
    its other columns, and leaves every other row as it was. *)
Theorem checkout_then_paid_event_confirms_booking
    env now xendit req_body booking_id id_text w :
  get req_body "booking_id" = Returned booking_id →
  ToString booking_id = Returned id_text →
  occurs "_" id_text = false →
  id_text ≠ "" →
  ∃ payload external_id,
    sent (create_checkout_session env now xendit req_body w).2
      = (sent w ++ [create_request payload])%list
    ∧ get payload "external_id" = Returned external_id
    ∧ ∀ event w',
        get event "status" = Returned (JString "PAID") →
        get event "external_id" = Returned external_id →
        store_error w' = None →
        (webhook event w').1 = Returned {| code := 200; body := TextBody "OK" |}
        ∧ bookings (webhook event w').2 !! id_text
          = (λ b, {| payment_status := "Paid"; status := "Confirmed";
                     columns := columns b |}) <$> bookings w' !! id_text
        ∧ ∀ k, k ≠ id_text →
               bookings (webhook event w').2 !! k = bookings w' !! k.
Proof.
  intros Hb Hc Hid Hne.
  destruct (create_sends env now xendit _ _ _ w Hb Hc)
    as (a & d & r & m & Hsent).
  destruct (created_identifier_round_trip now _ _ Hc Hid)
    as (ext & Hext & Hx & _).
  unfold external_id_template in Hext. rewrite Hc in Hext.
  injection Hext as <-.
  eexists _, _. split; [exact Hsent|].
  split; [apply payload_literal_external_id|].
  intros event w' Hs He Hf.
  assert (truthy (JString id_text) = true) as Ht.
  { simpl. by apply negb_true_iff, String.eqb_neq. }
  destruct (webhook_paid_touches_one_row event _ (JString id_text) w'
              Hs He Hx Ht Hf) as (H1 & H2 & H3).
  split; [exact H1|]. split; [exact H2|exact H3].
Qed.

Lemma checkout_then_paid_event_witness :
  let body42 := JObject [("booking_id", JString "42");
                         ("amount", JNumber "1000")] in
  let xendit := λ _ : Request, Failed None "timeout" in
  "42" ≠ ""
  ∧ sent (create_checkout_session {| FRONTEND_URL := None |} 169000 xendit
            body42 world0).2
    = [create_request (invoice_payload {| FRONTEND_URL := None |} 169000
                         (JString "42") (JNumber "1000") JUndefined JUndefined
                         JUndefined)]
  ∧ bookings (webhook (paid_event "booking_42_169000") world0).2 !! "42"
    = Some {| payment_status := "Paid"; status := "Confirmed";
              columns := [("amount", JNumber "1000")] |}.
Proof.
  intros body42 xendit.
  assert ("42" ≠ "") as Hne by discriminate.
  split; [exact Hne|]. split; [reflexivity|].
  destruct (checkout_then_paid_event_confirms_booking
              {| FRONTEND_URL := None |} 169000 xendit body42 (JString "42")
              "42" world0 eq_refl eq_refl eq_refl Hne)
    as (payload & ext & Hsent & Hext & H).
  apply (inj (app [])) in Hsent. injection Hsent as <-.
  injection Hext as <-.
  destruct (H (paid_event "booking_42_169000") world0) as (_ & H1 & _);
    [reflexivity..|].
  exact H1.
Defined.

(** ** The update on one booking *)

(** X10: a PAID event or invoice that resolves to a booking id, on a
    healthy database, sets [payment_status] to [Paid] and [status] to
    [Confirmed] on the row of that id, keeping its other columns, and leaves
    every other row as it was; the webhook answers 200 and verify-payment
    answers 200 with the status and the booking id. *)
Theorem paid_update_touches_one_row external_id booking_id :
  extract_verify external_id = Returned booking_id →
  truthy booking_id = true →
  (∀ event w,
     get event "status" = Returned (JString "PAID") →
     get event "external_id" = Returned external_id →
     store_error w = None →
     (webhook event w).1 = Returned {| code := 200; body := TextBody "OK" |}
     ∧ bookings (webhook event w).2 !! to_string booking_id
       = (λ b, {| payment_status := "Paid"; status := "Confirmed";
                  columns := columns b |})
         <$> bookings w !! to_string booking_id
     ∧ ∀ k, k ≠ to_string booking_id →
            bookings (webhook event w).2 !! k = bookings w !! k)
  ∧ (∀ xendit invoice_id invoice w,
       xendit (invoice_request invoice_id) = Ok2xx invoice →
       get invoice "status" = Returned (JString "PAID") →
       get invoice "external_id" = Returned external_id →
       store_error w = None →
       (verify_payment xendit invoice_id w).1
         = Returned {| code := 200;
                       body := JsonBody (JObject [("status", JString "PAID");
                                                  ("booking_id", booking_id)]) |}
       ∧ bookings (verify_payment xendit invoice_id w).2
           !! to_string booking_id
         = (λ b, {| payment_status := "Paid"; status := "Confirmed";
                    columns := columns b |})
           <$> bookings w !! to_string booking_id
       ∧ ∀ k, k ≠ to_string booking_id →
              bookings (verify_payment xendit invoice_id w).2 !! k
              = bookings w !! k).
Proof.
  intros Hb Ht. split.
  - intros event w Hs He Hf.
    apply (webhook_paid_touches_one_row _ external_id); try done.
    by rewrite extract_webhook_eq_verify.
  - intros xendit invoice_id invoice w Hx Hs He Hf.
    destruct (verify_paid _ _ _ Hx _ _ w Hs He Hb) as (-> & -> & _).
    unfold verify_answer, reconciled. rewrite Ht, Hf.
    split; [done|]. split; [apply update_eq_id_row|].
    intros k Hk. by apply update_eq_id_other.
Qed.

Lemma paid_update_touches_one_row_witness :
  bookings (webhook (paid_event "booking_42_169000") world0).2 !! "42"
    = Some {| payment_status := "Paid"; status := "Confirmed";
              columns := [("amount", JNumber "1000")] |}
  ∧ bookings (webhook (paid_event "booking_42_169000") world0).2 !! "7"
    = Some row_pending.
Proof.
  destruct (paid_update_touches_one_row (JString "booking_42_169000")
              (JString "42") eq_refl eq_refl) as [H _].
  destruct (H (paid_event "booking_42_169000") world0 eq_refl eq_refl eq_refl)
    as (_ & H1 & H2).
  split; [exact H1|]. apply (H2 "7"). discriminate.
Defined.

(** X11: a booking id that matches no row is not an error.  On a healthy
    database the webhook answers 200, the table is unchanged and the rows
    it prints as updated are the empty array; verify-payment answers 200
    with the status and the booking id. *)
Theorem unknown_booking_id_is_not_an_error external_id booking_id w :
  extract_verify external_id = Returned booking_id →
  truthy booking_id = true →
  store_error w = None →
  bookings w !! to_string booking_id = None →
  (∀ event,
     get event "status" = Returned (JString "PAID") →
     get event "external_id" = Returned external_id →
     (webhook event w).1 = Returned (res_sendStatus 200)
     ∧ bookings (webhook event w).2 = bookings w
     ∧ last (console (webhook event w).2)
       = Some {| line_level := Log;
                 line_text := "Booking updated successfully:";
                 line_args := [JArray []] |})
  ∧ (∀ xendit invoice_id invoice,
       xendit (invoice_request invoice_id) = Ok2xx invoice →
       get invoice "status" = Returned (JString "PAID") →
       get invoice "external_id" = Returned external_id →
       (verify_payment xendit invoice_id w).1
         = Returned (res_json (JObject [("status", JString "PAID");
                                        ("booking_id", booking_id)]))
       ∧ bookings (verify_payment xendit invoice_id w).2 = bookings w).
Proof.
  intros Hb Ht Hf Hk.
  assert (extract_webhook external_id = Returned booking_id) as Hb'
    by by rewrite extract_webhook_eq_verify.
  split.
  - intros event Hs He.
    destruct (webhook_paid _ _ _ w Hs He Hb') as (-> & -> & _).
    unfold webhook_answer, reconciled. rewrite Ht, Hf.
    rewrite (update_eq_id_missing _ _ Hk).
    split; [done|]. split; [done|].
    pose proof (ToString_extracted _ _ Hb) as Hcb.
    pose proof (ToString_falsy_or_string _ (extract_verify_returned _ _ Hb))
      as Hce.
    run_path. rewrite ?(update_eq_id_missing _ _ Hk).
    unfold select_eq_id. rewrite ?Hk. apply last_snoc.
  - intros xendit invoice_id invoice Hx Hs He.
    destruct (verify_paid _ _ _ Hx _ _ w Hs He Hb) as (-> & -> & _).
    unfold verify_answer, reconciled. rewrite Ht, Hf.
    by rewrite (update_eq_id_missing _ _ Hk).
Qed.

Lemma unknown_booking_id_witness :
  bookings world0 !! "99" = None
  ∧ (webhook (paid_event "booking_99_169000") world0).1
    = Returned (res_sendStatus 200)
  ∧ bookings (webhook (paid_event "booking_99_169000") world0).2
    = bookings world0.
Proof.
  assert (bookings world0 !! "99" = None) as Hk by reflexivity.
  destruct (unknown_booking_id_is_not_an_error (JString "booking_99_169000")
              (JString "99") world0 eq_refl eq_refl eq_refl Hk) as [H _].
  destruct (H (paid_event "booking_99_169000") eq_refl eq_refl)
    as (H1 & H2 & _).
  split; [exact Hk|]. split; [exact H1|exact H2].
Defined.

(** ** What verify-payment reports *)

(** X12: verify-payment reports the provider's status.  When the provider
    answers with an invoice whose identifier is missing or a string, the
    response is 200 and its [status] is the invoice's status, whether or
    not the store update succeeded; a [booking_id] is added exactly when
    the status is PAID and a booking id was extracted. *)
Theorem verify_reports_provider_status
    xendit invoice_id invoice status external_id w :
  xendit (invoice_request invoice_id) = Ok2xx invoice →
  get invoice "status" = Returned status →
  get invoice "external_id" = Returned external_id →
  truthy external_id = false ∨ is_string external_id = true →
  ∃ rest,
    (verify_payment xendit invoice_id w).1
      = Returned (res_json (JObject (("status", status) :: rest)))
    ∧ ((rest = []
        ∧ (status ≠ JString "PAID"
           ∨ ∃ b, extract_verify external_id = Returned b ∧ truthy b = false))
       ∨ ∃ b, rest = [("booking_id", b)]
              ∧ status = JString "PAID"
              ∧ extract_verify external_id = Returned b
              ∧ truthy b = true).
Proof.
  intros Hx Hs He Hstr.
  destruct (strict_eq_string status "PAID") eqn:Hp.
  - apply strict_eq_string_true in Hp as ->.
    destruct (extract_verify external_id) as [b|e] eqn:Hb.
    + destruct (verify_paid _ _ _ Hx _ _ w Hs He Hb) as (-> & _).
      unfold verify_answer. destruct (truthy b) eqn:Ht.
      * exists [("booking_id", b)]. split; [done|]. right. by exists b.
      * exists []. split; [done|]. left. split; [done|]. right. by exists b.
    + apply extract_verify_thrown in Hb as [? ?].
      destruct Hstr; congruence.
  - destruct (verify_not_paid _ _ _ Hx _ w Hs Hp) as (-> & _).
    exists []. split; [done|]. left. split; [done|]. left.
    intros ->. done.
Qed.

Lemma verify_reports_provider_status_witness :
  let expired := JObject [("status", JString "EXPIRED");
                          ("external_id", JString "booking_42_169000")] in
  (verify_payment (λ _, Ok2xx expired) "inv_1" world0).1
  = Returned (res_json (JObject [("status", JString "EXPIRED")])).
Proof.
  intros expired.
  destruct (verify_reports_provider_status (λ _, Ok2xx expired) "inv_1"
              expired (JString "EXPIRED") (JString "booking_42_169000")
              world0 eq_refl eq_refl eq_refl (or_intror eq_refl))
    as (rest & H & [[-> _]|(b & _ & [=] & _)]).
  exact H.
Defined.

(** ** The invoice payload *)


